(** * Automatic provisioning of AWS VPCs: a model of [nixops/resources/vpc.py]

    The resource state object of the Python module is embedded as a record
    [World]; its methods become computations in a state-and-exception monad
    [M].  The EC2 endpoint is an external collaborator: its answers are given
    by an oracle [EC2] indexed by the number of requests issued so far, and
    every request is appended to a trace. *)

From stdpp Require Import base gmap strings list fin_maps.

(** ** Python values *)

(** The values that flow through the definition and the state dictionary. *)
Inductive value :=
| VNone
| VBool (b : bool)
| VStr (s : string).

#[global] Instance value_eq_dec : EqDecision value.
Proof. solve_decision. Defined.

(** Truth value of an object in a condition ([if x:], [x or y], [assert x]). *)
Definition truthy (v : value) : bool :=
  match v with
  | VNone => false
  | VBool b => b
  | VStr s => negb (String.eqb s "")
  end.

(** What [str.format] substitutes for a replacement field. *)
Definition py_str (v : value) : string :=
  match v with
  | VNone => "None"
  | VBool true => "True"
  | VBool false => "False"
  | VStr s => s
  end.

(** [sub] occurs inside [s]. *)
Definition includes (sub s : string) : Prop :=
  ∃ before after, s = before +:+ sub +:+ after.

(** A [dict] from tag keys to tag values, in insertion order. *)
Definition tags_dict := list (string * string).

(** [d.update(other)]: keys of [other] overwrite, new keys are appended. *)
Fixpoint dict_set (k v : string) (d : tags_dict) : tags_dict :=
  match d with
  | [] => [(k, v)]
  | (k', v') :: d' =>
      if String.eqb k k' then (k', v) :: d' else (k', v') :: dict_set k v d'
  end.

Definition dict_update (d other : tags_dict) : tags_dict :=
  fold_left (fun acc kv => dict_set kv.1 kv.2 acc) other d.

(** ** Exceptions *)

Inductive exn :=
| Exception (msg : string)
| ClientError (code : string)       (* botocore.exceptions.ClientError *)
| NameError (name : string)
| KeyError (key : string)
| AttributeError (attr : string)
| TypeError (msg : string)
| AssertionError.

#[global] Instance exn_eq_dec : EqDecision exn.
Proof. solve_decision. Defined.

(** ** The resource definition and the lifecycle status *)

(** Modelled from the spec: [nixops.resources.ResourceState] is not part of
    the sources; the lifecycle status is the enumeration Missing, Starting,
    Up of the specification. *)
Inductive Status := MISSING | STARTING | UP.

#[global] Instance Status_eq_dec : EqDecision Status.
Proof. solve_decision. Defined.

(** The evaluated definition ([defn.config], [self.get_defn()]): every option
    of the resource is present, so a subscript on it cannot raise. *)
Record Config := {
  accessKeyId : value;
  region : value;
  cidrBlock : value;
  instanceTenancy : value;
  enableDnsSupport : value;
  enableDnsHostnames : value;
  enableClassicLink : value;
  amazonProvidedIpv6CidrBlock : value;
  tags : tags_dict
}.

(** ** The EC2 endpoint *)

Record Assoc := {
  AssociationId : string;
  Ipv6CidrBlock : string;
  Ipv6CidrBlockState : string      (* assoc['Ipv6CidrBlockState']['State'] *)
}.

Record Vpc := {
  VpcId : string;
  State : string;
  Ipv6CidrBlockAssociationSet : list Assoc
}.

(** Requests sent through [self._client], as recorded in the trace. *)
Inductive Call :=
| DeleteVpc (vpc : value)
| CreateVpc (cidr tenancy : value)
| DescribeVpcs (vpc : value)
| CreateTags (resource : value) (tgs : tags_dict)
| EnableVpcClassicLink (vpc : value)
| DisableVpcClassicLink (vpc : value)
| ModifyVpcAttribute (vpc : value) (attr : string) (v : value)
| AssociateVpcCidrBlock (amazon : value) (vpc : value)
| DisassociateVpcCidrBlock (association : value).

#[global] Instance Call_eq_dec : EqDecision Call.
Proof. solve_decision. Defined.

(** The answer to a request: a result, or a [ClientError] with its code. *)
Inductive Resp (A : Type) :=
| RespOk (a : A)
| RespErr (code : string).
Arguments RespOk {A} a.
Arguments RespErr {A} code.

(** The endpoint answers the request issued at logical time [t] (the number
    of requests sent before it). *)
Record EC2 := {
  delete_vpc : nat → value → Resp unit;
  create_vpc : nat → value → value → Resp string;
  describe_vpcs : nat → value → Resp (list Vpc);
  create_tags : nat → value → tags_dict → Resp unit;
  enable_vpc_classic_link : nat → value → Resp unit;
  disable_vpc_classic_link : nat → value → Resp unit;
  modify_vpc_attribute : nat → value → string → value → Resp unit;
  associate_vpc_cidr_block : nat → value → value → Resp string;
  disassociate_vpc_cidr_block : nat → value → Resp unit
}.

(** The boto3 client built by [connect]. *)
Record Client := {
  region_name : value;
  aws_access_key_id : value;
  aws_secret_access_key : value
}.

(** ** The resource state object *)

(** The first three fields are persisted ([state] and [access_key_id] are
    [attr_property]s, [_state] is the [StateDict]); [_client] and [vpc_id]
    live in memory only.  [calls] is the trace of requests, [writes] logs
    every persisted write with the transactional block it happened in,
    [txn] is the block currently open. *)
Record World := {
  state : Status;
  access_key_id : value;
  _state : gmap string value;
  _client : option Client;
  vpc_id : value;
  calls : list Call;
  writes : list (string * option nat);
  txn : option nat;
  next_txn : nat;
  logs : list string
}.

(** ** The monad of methods *)

Inductive Res (A : Type) :=
| Ok (a : A)
| Raise (e : exn)
| OutOfFuel.
Arguments Ok {A} a.
Arguments Raise {A} e.
Arguments OutOfFuel {A}.

Definition M (A : Type) : Type := World → Res A * World.

Definition ret {A} (a : A) : M A := fun w => (Ok a, w).

Definition bind {A B} (m : M A) (k : A → M B) : M B := fun w =>
  match m w with
  | (Ok a, w') => k a w'
  | (Raise e, w') => (Raise e, w')
  | (OutOfFuel, w') => (OutOfFuel, w')
  end.

Definition raise {A} (e : exn) : M A := fun w => (Raise e, w).

Declare Scope py_scope.
Delimit Scope py_scope with py.
Notation "'let*' x ':=' m 'in' k" := (bind m (fun x => k))
  (at level 10, x name, m at level 100, k at level 200) : py_scope.
Notation "m ;;; k" := (bind m (fun _ => k))
  (at level 100, right associativity) : py_scope.
Local Open Scope py_scope.

(** [try: body except: handler]; the handler re-raises what it does not
    catch. *)
Definition try_except {A} (body : M A) (handler : exn → M A) : M A := fun w =>
  match body w with
  | (Raise e, w') => handler e w'
  | other => other
  end.

(** [while True: body]; the body answers [Some a] when it breaks out. *)
Fixpoint while_true {A} (fuel : nat) (body : M (option A)) : M A :=
  match fuel with
  | O => fun w => (OutOfFuel, w)
  | S fuel' =>
      let* r := body in
      match r with
      | Some a => ret a
      | None => while_true fuel' body
      end
  end.

Definition assert (b : bool) : M unit :=
  if b then ret tt else raise AssertionError.

(** *** Field access *)

Definition get_state : M Status := fun w => (Ok (state w), w).
Definition get_access_key_id_attr : M value := fun w => (Ok (access_key_id w), w).
Definition get_client : M (option Client) := fun w => (Ok (_client w), w).
Definition get_vpc_id : M value := fun w => (Ok (vpc_id w), w).

Definition set_client (c : option Client) : M unit := fun w =>
  (Ok tt,
   {| state := state w; access_key_id := access_key_id w; _state := _state w;
      _client := c; vpc_id := vpc_id w; calls := calls w;
      writes := writes w; txn := txn w; next_txn := next_txn w;
      logs := logs w |}).

Definition set_vpc_id (v : value) : M unit := fun w =>
  (Ok tt,
   {| state := state w; access_key_id := access_key_id w; _state := _state w;
      _client := _client w; vpc_id := v; calls := calls w;
      writes := writes w; txn := txn w; next_txn := next_txn w;
      logs := logs w |}).

(** [self.log], [self.warn], [self.log_continue], [self.log_end]. *)
Definition log (msg : string) : M unit := fun w =>
  (Ok tt,
   {| state := state w; access_key_id := access_key_id w; _state := _state w;
      _client := _client w; vpc_id := vpc_id w; calls := calls w;
      writes := writes w; txn := txn w; next_txn := next_txn w;
      logs := logs w ++ [msg] |}).

Definition warn (msg : string) : M unit := log ("warning: " +:+ msg).
Definition log_continue (msg : string) : M unit := log msg.
Definition log_end (msg : string) : M unit := log msg.

(** *** Persisted writes *)

(** [self.state = s]. *)
Definition set_state (s : Status) : M unit := fun w =>
  (Ok tt,
   {| state := s; access_key_id := access_key_id w; _state := _state w;
      _client := _client w; vpc_id := vpc_id w; calls := calls w;
      writes := writes w ++ [("state", txn w)]; txn := txn w;
      next_txn := next_txn w; logs := logs w |}).

(** [self.access_key_id = v]. *)
Definition set_access_key_id (v : value) : M unit := fun w =>
  (Ok tt,
   {| state := state w; access_key_id := v; _state := _state w;
      _client := _client w; vpc_id := vpc_id w; calls := calls w;
      writes := writes w ++ [("accessKeyId", txn w)]; txn := txn w;
      next_txn := next_txn w; logs := logs w |}).

(** Modelled from the spec: [nixops.state.StateDict] is not part of the
    sources; it is the transactional key-value interface of the
    specification: [set(key, value)], [get(key, default)], and the subscript
    read of a mapping, which raises [KeyError] on an absent key. *)
Definition state_setitem (k : string) (v : value) : M unit := fun w =>
  (Ok tt,
   {| state := state w; access_key_id := access_key_id w;
      _state := <[k := v]> (_state w);
      _client := _client w; vpc_id := vpc_id w; calls := calls w;
      writes := writes w ++ [(k, txn w)]; txn := txn w;
      next_txn := next_txn w; logs := logs w |}).

Definition sd_get (k : string) (default : value) (d : gmap string value) : value :=
  match d !! k with
  | Some v => v
  | None => default
  end.

Definition state_get (k : string) (default : value) : M value := fun w =>
  (Ok (sd_get k default (_state w)), w).

Definition state_getitem (k : string) : M value := fun w =>
  match _state w !! k with
  | Some v => (Ok v, w)
  | None => (Raise (KeyError k), w)
  end.

(** Modelled from the spec: [self.depl._db] is not part of the sources;
    [with self.depl._db:] is the scoped transactional block of the
    specification: the writes of its body commit together when the body
    completes, and none of them persists when the body raises. *)
Definition with_db {A} (body : M A) : M A := fun w =>
  let t := next_txn w in
  match body {| state := state w; access_key_id := access_key_id w;
                _state := _state w; _client := _client w;
                vpc_id := vpc_id w; calls := calls w; writes := writes w;
                txn := Some t; next_txn := S t; logs := logs w |} with
  | (Ok a, w') =>
      (Ok a,
       {| state := state w'; access_key_id := access_key_id w';
          _state := _state w'; _client := _client w'; vpc_id := vpc_id w';
          calls := calls w'; writes := writes w'; txn := txn w;
          next_txn := next_txn w'; logs := logs w' |})
  | (r, w') =>
      (r,
       {| state := state w; access_key_id := access_key_id w;
          _state := _state w; _client := _client w'; vpc_id := vpc_id w';
          calls := calls w'; writes := writes w; txn := txn w;
          next_txn := next_txn w'; logs := logs w' |})
  end.

(** *** Requests to the endpoint *)

(** A method call on [self._client]: [None] has no such attribute;
    otherwise the request is recorded and answered by the oracle. *)
Definition request {A} (c : Call) (answer : nat → Resp A) : M A := fun w =>
  match _client w with
  | None => (Raise (AttributeError "NoneType"), w)
  | Some _ =>
      let w' :=
        {| state := state w; access_key_id := access_key_id w;
           _state := _state w; _client := _client w; vpc_id := vpc_id w;
           calls := calls w ++ [c]; writes := writes w; txn := txn w;
           next_txn := next_txn w; logs := logs w |} in
      match answer (length (calls w)) with
      | RespOk a => (Ok a, w')
      | RespErr code => (Raise (ClientError code), w')
      end
  end.

(** Evaluating [self._client.<method>], which Python does before it
    evaluates the arguments of the call: [None] has no attributes. *)
Definition client_attr : M unit := fun w =>
  match _client w with
  | None => (Raise (AttributeError "NoneType"), w)
  | Some _ => (Ok tt, w)
  end.

(** The monadic operations unfold once the world they run in is given. *)
Arguments ret {A} a w /.
Arguments bind {A B} m k w /.
Arguments raise {A} e w /.
Arguments try_except {A} body handler w /.
Arguments assert b w /.
Arguments get_state w /.
Arguments get_access_key_id_attr w /.
Arguments get_client w /.
Arguments get_vpc_id w /.
Arguments set_client c w /.
Arguments set_vpc_id v w /.
Arguments log msg w /.
Arguments warn msg w /.
Arguments log_continue msg w /.
Arguments log_end msg w /.
Arguments set_state s w /.
Arguments set_access_key_id v w /.
Arguments state_setitem k v w /.
Arguments state_get k default w /.
Arguments state_getitem k w /.
Arguments with_db {A} body w /.
Arguments request {A} c answer w /.
Arguments client_attr w /.

(** ** The module's surroundings *)

(** The names bound at module level by the import statements of the file. *)
Definition module_globals : list string :=
  ["boto3"; "botocore"; "nixops"; "EC2CommonState"; "StateDict"; "Diff";
   "Handler"; "VPCDefinition"; "VPCState"].

(** Evaluating a global name that no import or definition binds raises
    [NameError]. *)
Definition load_global (name : string) : M unit :=
  if bool_decide (name ∈ module_globals) then ret tt
  else raise (NameError name).

(** [time.sleep(secs)]: the name [time] is looked up first. *)
Definition time_sleep (secs : nat) : M unit :=
  load_global "time" ;;; ret tt.

(** The handlers registered by [__init__], by attribute name. *)
Inductive HandlerId :=
| handle_create
| handle_dns
| handle_classic_link
| handle_associate_ipv6_cidr_block
| handle_tag_update.

#[global] Instance HandlerId_eq_dec : EqDecision HandlerId.
Proof. solve_decision. Defined.

(** What the methods reach besides the object itself: the endpoint, the
    helpers of [nixops.ec2_utils] and [EC2CommonState], the definition
    returned by [self.get_defn()], and the plan computed by the diff engine
    that [setup_diff_engine] builds for a configuration and the state
    dictionary.  None of these is part of the sources. *)
Record Env := {
  ec2 : EC2;
  fetch_aws_secret_key : value → value * value;
  get_access_key_id : value;
  get_common_tags : tags_dict;
  get_defn : Config;
  diff_plan : Config → gmap string value → list HandlerId
}.

Section VPCState.
Context (env : Env).

(** *** [connect] *)
Definition connect : M unit :=
  let* c := get_client in
  match c with
  | Some _ => ret tt
  | None =>
      let* r := state_getitem "region" in
      assert (truthy r) ;;;
      let* key := get_access_key_id_attr in
      let creds := fetch_aws_secret_key env key in
      let* region_name := state_getitem "region" in
      set_client (Some {| region_name := region_name;
                          aws_access_key_id := creds.1;
                          aws_secret_access_key := creds.2 |})
  end.

(** *** [_destroy] *)
Definition _destroy : M unit :=
  let* st := get_state in
  if negb (bool_decide (st = UP)) then ret tt else
  connect ;;;
  let* vid := state_getitem "vpcId" in
  log ("destroying vpc " +:+ py_str vid +:+ "...") ;;;
  try_except
    (let* vid := state_getitem "vpcId" in
     request (DeleteVpc vid) (fun t => delete_vpc (ec2 env) t vid))
    (fun e =>
       match e with
       | ClientError code =>
           if String.eqb code "InvalidVpcID.NotFound" then
             let* vid := state_getitem "vpcId" in
             warn ("vpc " +:+ py_str vid +:+ " was already deleted")
           else raise e
       | _ => raise e
       end) ;;;
  with_db
    (set_state MISSING ;;;
     state_setitem "vpcId" VNone ;;;
     state_setitem "region" VNone ;;;
     state_setitem "cidrBlock" VNone ;;;
     state_setitem "instanceTenancy" VNone ;;;
     state_setitem "enableDnsSupport" VNone ;;;
     state_setitem "enableDnsHostname" VNone ;;;
     state_setitem "enableVpcClassicLink" VNone).

(** *** [destroy] *)
Definition destroy (wipe : bool) : M bool :=
  _destroy ;;;
  ret true.

(** *** [wait_for_vpc_available] *)

(** One turn of the loop, with the pause between polls as a parameter. *)
Definition poll_vpc_available (sleep : nat → M unit) (vpc_id : value)
  : M (option unit) :=
  let* response :=
    request (DescribeVpcs vpc_id) (fun t => describe_vpcs (ec2 env) t vpc_id) in
  match response with
  | [vpc] =>
      if String.eqb (State vpc) "available" then ret (Some tt)
      else if negb (String.eqb (State vpc) "pending") then
        raise (Exception ("vpc " +:+ py_str vpc_id
                          +:+ " is in an unexpected state " +:+ State vpc))
      else
        log_continue "." ;;;
        sleep 1 ;;;
        ret None
  | _ =>
      let* vid := state_getitem "vpcId" in
      raise (Exception ("couldn't find vpc " +:+ py_str vid
                        +:+ ", please run a deploy with --check"))
  end.

Definition wait_for_vpc_available_with (sleep : nat → M unit) (fuel : nat)
  (vpc_id : value) : M unit :=
  while_true fuel (poll_vpc_available sleep vpc_id) ;;;
  log_end " done" ;;;
  with_db (set_state UP).

(** The method as the module runs it. *)
Definition wait_for_vpc_available (fuel : nat) (vpc_id : value) : M unit :=
  wait_for_vpc_available_with time_sleep fuel vpc_id.

(** *** [update_tags_using] *)

(** Modelled from the spec: [EC2CommonState.update_tags_using] is not part
    of the sources; the specification only names the provider's tag
    operation and has no words for this helper.  Here, with [check=True],
    the user tags, completed with the common tags, are handed to the
    updater once, and nothing is persisted.  The statement of the creation
    handler's write log does not rest on this: it is made for every helper
    (see [realize_create_vpc_with]). *)
Definition update_tags_using (updater : tags_dict → M unit)
  (user_tags : tags_dict) (check : bool) : M unit :=
  updater (dict_update user_tags (get_common_tags env)).

(** *** [realize_create_vpc] *)
Definition realize_create_vpc (fuel : nat) (allow_recreate : bool) : M unit :=
  let config := get_defn env in
  let* st := get_state in
  (if bool_decide (st = UP) then
     (if negb allow_recreate then
        let* vid := get_vpc_id in
        raise (Exception
                 ("vpc " +:+ py_str vid
                  +:+ " definition changed and it needs to be recreated "
                  +:+ "use --allow-recreate if you want to create a new one"))
      else ret tt) ;;;
     warn "vpc definition changed, recreating..." ;;;
     _destroy ;;;
     set_client None
   else ret tt) ;;;
  state_setitem "region" (region config) ;;;
  connect ;;;
  log ("creating vpc under region " +:+ py_str (region config)) ;;;
  let* vpc :=
    request (CreateVpc (cidrBlock config) (instanceTenancy config))
      (fun t => create_vpc (ec2 env) t (cidrBlock config) (instanceTenancy config)) in
  set_vpc_id (VStr vpc) ;;;
  with_db
    (set_state STARTING ;;;
     (let* vid := get_vpc_id in state_setitem "vpcId" vid) ;;;
     state_setitem "region" (region config) ;;;
     state_setitem "cidrBlock" (cidrBlock config) ;;;
     state_setitem "instanceTenancy" (instanceTenancy config)) ;;;
  let tag_updater (tgs : tags_dict) : M unit :=
    let* vid := get_vpc_id in
    request (CreateTags vid tgs) (fun t => create_tags (ec2 env) t vid tgs) in
  update_tags_using tag_updater (tags config) true ;;;
  let* vid := get_vpc_id in
  wait_for_vpc_available fuel vid.

(** *** [realize_classic_link_change] *)
Definition realize_classic_link_change (allow_recreate : bool) : M unit :=
  let config := get_defn env in
  connect ;;;
  (if truthy (enableClassicLink config) then
     let* vid := get_vpc_id in
     request (EnableVpcClassicLink vid)
       (fun t => enable_vpc_classic_link (ec2 env) t vid)
   else
     let* old := state_get "enableClassicLink" VNone in
     if bool_decide (enableClassicLink config = VBool false) && truthy old then
       let* vid := get_vpc_id in
       request (DisableVpcClassicLink vid)
         (fun t => disable_vpc_classic_link (ec2 env) t vid)
     else ret tt) ;;;
  with_db (state_setitem "enableClassicLink" (enableClassicLink config)).

(** *** [realize_dns_config] *)
Definition realize_dns_config (allow_recreate : bool) : M unit :=
  let config := get_defn env in
  connect ;;;
  (let* vid := get_vpc_id in
   request (ModifyVpcAttribute vid "EnableDnsSupport" (enableDnsSupport config))
     (fun t => modify_vpc_attribute (ec2 env) t vid "EnableDnsSupport"
                 (enableDnsSupport config))) ;;;
  (let* vid := get_vpc_id in
   request (ModifyVpcAttribute vid "EnableDnsHostnames" (enableDnsHostnames config))
     (fun t => modify_vpc_attribute (ec2 env) t vid "EnableDnsHostnames"
                 (enableDnsHostnames config))) ;;;
  with_db
    (state_setitem "enableDnsSupport" (enableDnsSupport config) ;;;
     state_setitem "enableDnsHostnames" (enableDnsHostnames config)).

(** *** [wait_for_ipv6_cidr_association] *)

(** The nested [lookup_association]: falls off the end, returning [None],
    when no association has the identifier. *)
Fixpoint lookup_association (association_id : value)
  (association_set : list Assoc) : option Assoc :=
  match association_set with
  | [] => None
  | assoc :: rest =>
      if bool_decide (association_id = VStr (AssociationId assoc))
      then Some assoc
      else lookup_association association_id rest
  end.

Definition poll_ipv6_cidr_association (sleep : nat → M unit)
  (association_id : value) : M (option Assoc) :=
  let* response :=
    (client_attr ;;;
     let* vid := state_getitem "vpcId" in
     request (DescribeVpcs vid) (fun t => describe_vpcs (ec2 env) t vid)) in
  match response with
  | [vpc] =>
      match lookup_association association_id (Ipv6CidrBlockAssociationSet vpc) with
      | None => raise (TypeError "'NoneType' object is not subscriptable")
      | Some association =>
          let cidr_block_state := Ipv6CidrBlockState association in
          if String.eqb cidr_block_state "associated" then ret (Some association)
          else if negb (String.eqb cidr_block_state "associating") then
            raise (Exception ("ipv6 cidr block association "
                              +:+ py_str association_id
                              +:+ " is in an unexpected state "
                              +:+ cidr_block_state))
          else
            log_continue "." ;;;
            sleep 1 ;;;
            ret None
      end
  | _ =>
      let* vid := state_getitem "vpcId" in
      raise (Exception ("couldn't find vpc " +:+ py_str vid
                        +:+ ", please run a deploy with --check"))
  end.

Definition wait_for_ipv6_cidr_association_with (sleep : nat → M unit)
  (fuel : nat) (association_id : value) : M string :=
  let* association :=
    while_true fuel (poll_ipv6_cidr_association sleep association_id) in
  log_end " done" ;;;
  ret (Ipv6CidrBlock association).

Definition wait_for_ipv6_cidr_association (fuel : nat)
  (association_id : value) : M string :=
  wait_for_ipv6_cidr_association_with time_sleep fuel association_id.

(** *** [realize_associate_ipv6_cidr_block] *)
Definition realize_associate_ipv6_cidr_block (fuel : nat)
  (allow_recreate : bool) : M unit :=
  let config := get_defn env in
  connect ;;;
  let assign_cidr := amazonProvidedIpv6CidrBlock config in
  let* association_id :=
    (if truthy assign_cidr then
       (let* vid := state_getitem "vpcId" in
        log ("associating an amazon provided Ipv6 address to vpc " +:+ py_str vid)) ;;;
       let* response :=
         (let* vid := state_getitem "vpcId" in
          request (AssociateVpcCidrBlock assign_cidr vid)
            (fun t => associate_vpc_cidr_block (ec2 env) t assign_cidr vid)) in
       let association_id := VStr response in
       let* cidr_block := wait_for_ipv6_cidr_association fuel association_id in
       log ("generated Ipv6 cidr block: " +:+ cidr_block) ;;;
       ret (Some association_id)
     else
       let* old := state_get "associationId" VNone in
       (if truthy old then
          (let* vid := state_getitem "vpcId" in
           log ("disassociating Ipv6 cidr block from vpc " +:+ py_str vid)) ;;;
          let* aid := state_getitem "associationId" in
          request (DisassociateVpcCidrBlock aid)
            (fun t => disassociate_vpc_cidr_block (ec2 env) t aid)
        else ret tt) ;;;
       ret None) in
  with_db
    (state_setitem "amazonProvidedIpv6CidrBlock" assign_cidr ;;;
     match association_id with
     | Some aid => state_setitem "associationId" aid
     | None => ret tt
     end).

(** *** [realize_update_tag] *)
Definition realize_update_tag (allow_recreate : bool) : M unit :=
  let config := get_defn env in
  connect ;;;
  let tgs := dict_update (tags config) (get_common_tags env) in
  let* vid := get_vpc_id in
  request (CreateTags vid tgs) (fun t => create_tags (ec2 env) t vid tgs).

(** *** [ensure_state_up] *)
Definition ensure_state_up (fuel : nat) (check : bool) : M unit :=
  let config := get_defn env in
  state_setitem "region" (region config) ;;;
  connect ;;;
  let* vid := state_get "vpcId" VNone in
  if truthy vid then
    (if check then
       try_except
         (let* vid := state_getitem "vpcId" in
          let* _ := request (DescribeVpcs vid)
                      (fun t => describe_vpcs (ec2 env) t vid) in
          ret tt)
         (fun e =>
            match e with
            | ClientError code =>
                if String.eqb code "InvalidVpcID.NotFound" then
                  (let* vid := state_getitem "vpcId" in
                   warn ("vpc " +:+ py_str vid
                         +:+ " was deleted from outside nixops,"
                         +:+ " it will be recreated...")) ;;;
                  let allow_recreate := true in
                  realize_create_vpc fuel allow_recreate ;;;
                  realize_classic_link_change allow_recreate ;;;
                  realize_dns_config allow_recreate
                else raise e
            | _ => raise e
            end)
     else ret tt) ;;;
    let* st := get_state in
    if negb (bool_decide (st = UP)) then
      let* vid := state_getitem "vpcId" in
      wait_for_vpc_available fuel vid
    else ret tt
  else ret tt.

(** *** The handlers of [__init__] *)

(** Modelled from the spec: [nixops.diff.Handler] is not part of the
    sources; a handler is its trigger set, its ordered list of
    predecessors ([after], empty when omitted) and its effect. *)
Record Handler := {
  keys : list string;
  after : list HandlerId;
  handle : bool → M unit
}.

Definition handlers (fuel : nat) (h : HandlerId) : Handler :=
  match h with
  | handle_create =>
      {| keys := ["cidrBlock"; "region"; "instanceTenancy"];
         after := [];
         handle := realize_create_vpc fuel |}
  | handle_dns =>
      {| keys := ["enableDnsHostnames"; "enableDnsSupport"];
         after := [handle_create];
         handle := realize_dns_config |}
  | handle_classic_link =>
      {| keys := ["enableClassicLink"];
         after := [handle_create];
         handle := realize_classic_link_change |}
  | handle_associate_ipv6_cidr_block =>
      {| keys := ["amazonProvidedIpv6CidrBlock"];
         after := [handle_create];
         handle := realize_associate_ipv6_cidr_block fuel |}
  | handle_tag_update =>
      {| keys := ["tags"];
         after := [handle_create];
         handle := realize_update_tag |}
  end.

(** The handler attributes, in the order [__init__] assigns them. *)
Definition registered : list HandlerId :=
  [handle_create; handle_dns; handle_classic_link;
   handle_associate_ipv6_cidr_block; handle_tag_update].

(** A plan honours the declared predecessors: wherever a handler and one
    of its predecessors both occur, the predecessor comes first. *)
Definition respects_after (fuel : nat) (plan : list HandlerId) : Prop :=
  ∀ i j h p,
    plan !! i = Some h → plan !! j = Some p →
    p ∈ after (handlers fuel h) → j < i.

(** *** [create] *)

(** [for handler in plan: handler.handle(allow_recreate)]. *)
Fixpoint run_plan (fuel : nat) (plan : list HandlerId)
  (allow_recreate : bool) : M unit :=
  match plan with
  | [] => ret tt
  | h :: rest =>
      handle (handlers fuel h) allow_recreate ;;;
      run_plan fuel rest allow_recreate
  end.

Definition create (fuel : nat) (defn : Config)
  (check allow_reboot allow_recreate : bool) : M unit :=
  set_access_key_id
    (if truthy (accessKeyId defn) then accessKeyId defn
     else get_access_key_id env) ;;;
  let* key := get_access_key_id_attr in
  (if negb (truthy key) then
     raise (Exception
              "please set 'accessKeyId', $EC2_ACCESS_KEY or $AWS_ACCESS_KEY_ID")
   else ret tt) ;;;
  let* plan := (fun w => (Ok (diff_plan env defn (_state w)), w)) in
  run_plan fuel plan allow_recreate ;;;
  ensure_state_up fuel check.

(** [resource_id]. *)
Definition resource_id (w : World) : value := sd_get "vpcId" VNone (_state w).

End VPCState.

(** ** Notions used by the statements *)

Local Open Scope py_scope.

(** What survives the process: the two attribute properties and the state
    dictionary. *)
Definition persisted (w : World) : Status * value * gmap string value :=
  (state w, access_key_id w, _state w).

(** [connect] succeeds: a client is already there, or a non-empty region is
    stored. *)
Definition can_connect (w : World) : Prop :=
  is_Some (_client w) ∨ ∃ r, _state w !! "region" = Some r ∧ truthy r = true.

(** The endpoint's answer to a [describe_vpcs] issued now. *)
Definition describe_now (env : Env) (w : World) (vpc : value) : Resp (list Vpc) :=
  describe_vpcs (ec2 env) (length (calls w)) vpc.

(** The endpoint's answer to a [delete_vpc] issued now. *)
Definition delete_now (env : Env) (w : World) (vpc : value) : Resp unit :=
  delete_vpc (ec2 env) (length (calls w)) vpc.

(** The number of polls in a trace. *)
Definition is_poll (c : Call) : bool :=
  match c with
  | DescribeVpcs _ => true
  | _ => false
  end.

Definition polls (trace : list Call) : nat :=
  length (List.filter is_poll trace).

(** The attribute fields that the handlers write into the state dictionary. *)
Definition attribute_fields : list string :=
  ["region"; "cidrBlock"; "instanceTenancy"; "enableDnsSupport";
   "enableDnsHostnames"; "enableClassicLink"; "amazonProvidedIpv6CidrBlock";
   "associationId"].

(** The destroy postcondition for an arbitrary starting state: status
    Missing, no identity, every attribute field empty. *)
Definition destroy_postcondition (env : Env) (wipe : bool) (w : World) : Prop :=
  let w' := (destroy env wipe w).2 in
  state w' = MISSING ∧ resource_id w' = VNone ∧
  ∀ k, k ∈ attribute_fields → sd_get k VNone (_state w') = VNone.

(** [destroy] answers [True] whatever the starting state. *)
Definition destroy_always_true (env : Env) (wipe : bool) (w : World) : Prop :=
  ∃ w', destroy env wipe w = (Ok true, w').

(** *** Transactional blocks *)

(** The writes of an invocation all carry the mark of one block. *)
Definition single_block (l : list (string * option nat)) : Prop :=
  ∃ t, ∀ e, e ∈ l → e.2 = Some t.

(** Every invocation of [m] writes its fields within one block. *)
Definition atomic_commit {A} (m : M A) : Prop :=
  ∀ w, ∃ l, writes (m w).2 = writes w ++ l ∧ single_block l.

(** Every handler effect commits the writes of an invocation in one
    block. *)
Definition per_handler_atomic (env : Env) (fuel : nat) (allow : bool) : Prop :=
  ∀ h, atomic_commit (handle (handlers env fuel h) allow).

(** [m] never leaves the world outside the relation [R]. *)
Definition frames {A} (R : relation World) (m : M A) : Prop :=
  ∀ w, R w (m w).2.

(** Nothing is written and no block is opened. *)
Definition quiet : relation World := λ w w',
  writes w' = writes w ∧ txn w' = txn w ∧ next_txn w' = next_txn w.

(** The write discipline of the creation handler: each write is either that
    of [region] ahead of [connect], marked like the surroundings, or lies in
    a block opened during the invocation. *)
Definition create_discipline : relation World := λ w w',
  txn w' = txn w ∧ next_txn w ≤ next_txn w' ∧
  ∃ l, writes w' = writes w ++ l ∧
       ∀ e, e ∈ l →
            e = ("region", txn w) ∨
            ∃ t, e.2 = Some t ∧ next_txn w ≤ t < next_txn w'.

(** *** A cooperative endpoint *)

(** Every request is accepted; a deletion may find the VPC already gone;
    a creation yields [new]; [new] is reported available at once, with the
    association [aid] in place. *)
Record cooperative (env : Env) (new aid : string) : Prop := {
  coop_region : truthy (region (get_defn env)) = true;
  coop_fresh : new ≠ "";
  coop_delete : ∀ t v,
    delete_vpc (ec2 env) t v = RespOk tt ∨
    delete_vpc (ec2 env) t v = RespErr "InvalidVpcID.NotFound";
  coop_create : ∀ t c i, create_vpc (ec2 env) t c i = RespOk new;
  coop_describe : ∀ t, ∃ vpc a,
    describe_vpcs (ec2 env) t (VStr new) = RespOk [vpc] ∧
    State vpc = "available" ∧
    lookup_association (VStr aid) (Ipv6CidrBlockAssociationSet vpc) = Some a ∧
    Ipv6CidrBlockState a = "associated";
  coop_tags : ∀ t v d, create_tags (ec2 env) t v d = RespOk tt;
  coop_enable : ∀ t v, enable_vpc_classic_link (ec2 env) t v = RespOk tt;
  coop_disable : ∀ t v, disable_vpc_classic_link (ec2 env) t v = RespOk tt;
  coop_modify : ∀ t v a x, modify_vpc_attribute (ec2 env) t v a x = RespOk tt;
  coop_associate : ∀ t a v, associate_vpc_cidr_block (ec2 env) t a v = RespOk aid;
  coop_disassociate : ∀ t a, disassociate_vpc_cidr_block (ec2 env) t a = RespOk tt
}.

(** The VPC [id] is recorded as up and the endpoint can be reached. *)
Definition serving (id : string) (w : World) : Prop :=
  state w = UP ∧ _state w !! "vpcId" = Some (VStr id) ∧ can_connect w.

(** [m], run in [w], returns normally, with a result and a world that
    satisfy [Q]. *)
Definition returns {A} (m : M A) (w : World) (Q : A → World → Prop) : Prop :=
  ∃ a w', m w = (Ok a, w') ∧ Q a w'.

(** The trace only grows. *)
Definition extends (w w' : World) : Prop := ∃ tr, calls w' = calls w ++ tr.

(** The access key that [create] settles on. *)
Definition resolved_key (env : Env) (defn : Config) : value :=
  if truthy (accessKeyId defn) then accessKeyId defn else get_access_key_id env.

(** Recreate gating as it would hold for every configuration: with
    [allow_recreate] false and the status Up, [create] raises and the
    persisted state is what it was. *)
Definition gate_keeps_persisted (env : Env) (fuel : nat) (defn : Config)
  (check allow_reboot : bool) (w : World) : Prop :=
  ∃ msg w',
    create env fuel defn check allow_reboot false w = (Raise (Exception msg), w') ∧
    persisted w' = persisted w.



(** *** The write log of the creation handler *)

(** The nested [tag_updater] of [realize_create_vpc]. *)
Definition tag_updater (env : Env) (tgs : tags_dict) : M unit :=
  let* vid := get_vpc_id in
  request (CreateTags vid tgs) (fun t => create_tags (ec2 env) t vid tgs).

(** [realize_create_vpc], with the inherited [update_tags_using], whose
    code is not part of the sources, as a parameter. *)
Definition realize_create_vpc_with (env : Env)
  (update_tags : (tags_dict → M unit) → tags_dict → bool → M unit)
  (fuel : nat) (allow_recreate : bool) : M unit :=
  let config := get_defn env in
  let* st := get_state in
  (if bool_decide (st = UP) then
     (if negb allow_recreate then
        let* vid := get_vpc_id in
        raise (Exception
                 ("vpc " +:+ py_str vid
                  +:+ " definition changed and it needs to be recreated "
                  +:+ "use --allow-recreate if you want to create a new one"))
      else ret tt) ;;;
     warn "vpc definition changed, recreating..." ;;;
     _destroy env ;;;
     set_client None
   else ret tt) ;;;
  state_setitem "region" (region config) ;;;
  connect env ;;;
  log ("creating vpc under region " +:+ py_str (region config)) ;;;
  let* vpc :=
    request (CreateVpc (cidrBlock config) (instanceTenancy config))
      (fun t => create_vpc (ec2 env) t (cidrBlock config) (instanceTenancy config)) in
  set_vpc_id (VStr vpc) ;;;
  with_db
    (set_state STARTING ;;;
     (let* vid := get_vpc_id in state_setitem "vpcId" vid) ;;;
     state_setitem "region" (region config) ;;;
     state_setitem "cidrBlock" (cidrBlock config) ;;;
     state_setitem "instanceTenancy" (instanceTenancy config)) ;;;
  update_tags (tag_updater env) (tags config) true ;;;
  let* vid := get_vpc_id in
  wait_for_vpc_available env fuel vid.

(** The writes of the reset block of [_destroy], of the Starting commit of
    [realize_create_vpc] and of the Up commit of the waiter, each made in
    the block [t]. *)
Definition reset_writes (t : nat) : list (string * option nat) :=
  [("state", Some t); ("vpcId", Some t); ("region", Some t);
   ("cidrBlock", Some t); ("instanceTenancy", Some t);
   ("enableDnsSupport", Some t); ("enableDnsHostname", Some t);
   ("enableVpcClassicLink", Some t)].

Definition starting_writes (t : nat) : list (string * option nat) :=
  [("state", Some t); ("vpcId", Some t); ("region", Some t);
   ("cidrBlock", Some t); ("instanceTenancy", Some t)].

Definition up_writes (t : nat) : list (string * option nat) :=
  [("state", Some t)].

(** The write log of one invocation of the creation handler, entered in
    [w] and left in [w'].  On a recreate the reset block comes first.  The
    invocation then ends before it writes anything else; or after it has
    written [region], marked like the surroundings; or it goes on to the
    Starting commit, made in one block, and calls the tag helper in some
    world [w2]: whatever the helper leaves in the log, the invocation adds
    nothing to it, or the Up commit, made in one more block. *)
Definition creation_log (env : Env)
  (update_tags : (tags_dict → M unit) → tags_dict → bool → M unit)
  (w w' : World) : Prop :=
  ∃ recreated : bool,
    let before :=
      writes w ++ (if recreated then reset_writes (next_txn w) else []) in
    let t := if recreated then S (next_txn w) else next_txn w in
    writes w' = before ∨
    writes w' = before ++ [("region", txn w)] ∨
    ∃ w2,
      writes w2 = before ++ ("region", txn w) :: starting_writes t ∧
      let w3 := (update_tags (tag_updater env) (tags (get_defn env)) true w2).2 in
      writes w' = writes w3 ∨ writes w' = writes w3 ++ up_writes (next_txn w3).

(** ** Scenarios *)

(** An endpoint that accepts everything, creates ["vpc-0b2"], and answers
    deletions and descriptions as told. *)
Definition scripted_ec2 (deleting : value → Resp unit)
  (describing : nat → value → Resp (list Vpc)) : EC2 :=
  {| delete_vpc := λ _ v, deleting v;
     create_vpc := λ _ _ _, RespOk "vpc-0b2";
     describe_vpcs := describing;
     create_tags := λ _ _ _, RespOk tt;
     enable_vpc_classic_link := λ _ _, RespOk tt;
     disable_vpc_classic_link := λ _ _, RespOk tt;
     modify_vpc_attribute := λ _ _ _ _, RespOk tt;
     associate_vpc_cidr_block := λ _ _ _, RespOk "vpc-cidr-assoc-7";
     disassociate_vpc_cidr_block := λ _ _, RespOk tt |}.

Definition described (id : value) (st : string) (assoc_state : string) : Vpc :=
  {| VpcId := py_str id; State := st;
     Ipv6CidrBlockAssociationSet :=
       [ {| AssociationId := "vpc-cidr-assoc-7";
            Ipv6CidrBlock := "2600:1f16::/56";
            Ipv6CidrBlockState := assoc_state |} ] |}.

(** The successive polls report the given states, then an empty list. *)
Definition poll_script (states : list string) : nat → value → Resp (list Vpc) :=
  λ t id,
    match states !! t with
    | Some st => RespOk [described id st "associated"]
    | None => RespOk []
    end.

(** Every VPC is available. *)
Definition steady : nat → value → Resp (list Vpc) :=
  λ _ id, RespOk [described id "available" "associated"].



Definition demo_config (key cidr : string) : Config :=
  {| accessKeyId := VStr key;
     region := VStr "eu-west-1";
     cidrBlock := VStr cidr;
     instanceTenancy := VStr "default";
     enableDnsSupport := VBool true;
     enableDnsHostnames := VBool true;
     enableClassicLink := VBool false;
     amazonProvidedIpv6CidrBlock := VBool true;
     tags := [("env", "demo")] |}.

Definition demo_env (e : EC2) (cfg : Config) (plan : list HandlerId) : Env :=
  {| ec2 := e;
     fetch_aws_secret_key := λ key, (key, VStr "secret");
     get_access_key_id := VNone;
     get_common_tags := [("CharonNetworkUUID", "6f1c")];
     get_defn := cfg;
     diff_plan := λ _ _, plan |}.

(** A deployed VPC ["vpc-0a1"] with every attribute recorded. *)
Definition demo_world (st : Status) : World :=
  {| state := st;
     access_key_id := VStr "AKIA-OLD";
     _state :=
       list_to_map
         [("vpcId", VStr "vpc-0a1"); ("region", VStr "eu-west-1");
          ("cidrBlock", VStr "10.0.0.0/16"); ("instanceTenancy", VStr "default");
          ("enableDnsSupport", VBool true); ("enableDnsHostnames", VBool true);
          ("enableClassicLink", VBool true);
          ("amazonProvidedIpv6CidrBlock", VBool true);
          ("associationId", VStr "vpc-cidr-assoc-3")];
     _client := None;
     vpc_id := VStr "vpc-0a1";
     calls := [];
     writes := [];
     txn := None;
     next_txn := 0;
     logs := [] |}.

(** The same, with a client already connected. *)
Definition connected_world (st : Status) : World :=
  {| state := st;
     access_key_id := access_key_id (demo_world st);
     _state := _state (demo_world st);
     _client := Some {| region_name := VStr "eu-west-1";
                        aws_access_key_id := VStr "AKIA-OLD";
                        aws_secret_access_key := VStr "secret" |};
     vpc_id := VStr "vpc-0a1";
     calls := [];
     writes := [];
     txn := None;
     next_txn := 0;
     logs := [] |}.

(** ** Worlds reached by the methods *)

(** Where [_destroy] gets to when the status is Up: the world once the
    client is there and the deletion is announced. *)
Definition announced (env : Env) (w : World) (vid : value) : World :=
  {| state := state w; access_key_id := access_key_id w;
     _state := _state w;
     _client :=
       match _client w with
       | Some c => Some c
       | None =>
           Some {| region_name := sd_get "region" VNone (_state w);
                   aws_access_key_id := (fetch_aws_secret_key env (access_key_id w)).1;
                   aws_secret_access_key := (fetch_aws_secret_key env (access_key_id w)).2 |}
       end;
     vpc_id := vpc_id w;
     calls := calls w ++ [DeleteVpc vid];
     writes := writes w; txn := txn w; next_txn := next_txn w;
     logs := logs w ++ ["destroying vpc " +:+ py_str vid +:+ "..."] |}.

(** The world after the reset block of [_destroy], entered from [w]. *)
Definition reset (w : World) : World :=
  {| state := MISSING; access_key_id := access_key_id w;
     _state :=
       <["enableVpcClassicLink" := VNone]>
         (<["enableDnsHostname" := VNone]>
            (<["enableDnsSupport" := VNone]>
               (<["instanceTenancy" := VNone]>
                  (<["cidrBlock" := VNone]>
                     (<["region" := VNone]>
                        (<["vpcId" := VNone]> (_state w)))))));
     _client := _client w; vpc_id := vpc_id w; calls := calls w;
     writes :=
       writes w ++
         [("state", Some (next_txn w)); ("vpcId", Some (next_txn w));
          ("region", Some (next_txn w)); ("cidrBlock", Some (next_txn w));
          ("instanceTenancy", Some (next_txn w));
          ("enableDnsSupport", Some (next_txn w));
          ("enableDnsHostname", Some (next_txn w));
          ("enableVpcClassicLink", Some (next_txn w))];
     txn := txn w; next_txn := S (next_txn w); logs := logs w |}.

Definition warned (w : World) (msg : string) : World :=
  {| state := state w; access_key_id := access_key_id w;
     _state := _state w; _client := _client w; vpc_id := vpc_id w;
     calls := calls w; writes := writes w; txn := txn w;
     next_txn := next_txn w; logs := logs w ++ [msg] |}.

(** The world after one more request. *)
Definition asked (w : World) (c : Call) : World :=
  {| state := state w; access_key_id := access_key_id w;
     _state := _state w; _client := _client w; vpc_id := vpc_id w;
     calls := calls w ++ [c]; writes := writes w; txn := txn w;
     next_txn := next_txn w; logs := logs w |}.

(** The world once the waiter has seen the VPC available. *)
Definition waited (w : World) (target : value) : World :=
  {| state := UP; access_key_id := access_key_id w; _state := _state w;
     _client := _client w; vpc_id := vpc_id w;
     calls := calls w ++ [DescribeVpcs target];
     writes := writes w ++ [("state", Some (next_txn w))];
     txn := txn w; next_txn := S (next_txn w);
     logs := logs w ++ [" done"] |}.

(** *** Environments of the scenarios *)

Definition quiet_env : Env :=
  demo_env (scripted_ec2 (λ _, RespOk tt) steady)
    (demo_config "AKIA-OLD" "10.0.0.0/16") [].

Definition refusing_env : Env :=
  demo_env (scripted_ec2 (λ _, RespErr "DependencyViolation") steady)
    (demo_config "AKIA-OLD" "10.0.0.0/16") [].

Definition pending_twice_env : Env :=
  demo_env (scripted_ec2 (λ _, RespOk tt)
              (poll_script ["pending"; "pending"; "available"]))
    (demo_config "AKIA-OLD" "10.0.0.0/16") [].

Definition odd_state_env : Env :=
  demo_env (scripted_ec2 (λ _, RespOk tt)
              (λ _ id, RespOk [described id "deleting" "failed"]))
    (demo_config "AKIA-OLD" "10.0.0.0/16") [].

Definition empty_answer_env : Env :=
  demo_env (scripted_ec2 (λ _, RespOk tt) (poll_script []))
    (demo_config "AKIA-OLD" "10.0.0.0/16") [].

Definition recreate_env : Env :=
  demo_env (scripted_ec2 (λ _, RespOk tt) steady)
    (demo_config "AKIA-NEW" "10.1.0.0/16") [handle_create; handle_dns].





(** ** Further notions *)

(** [m], run in [w], ends with an outcome and a world that satisfy [Q]. *)
Definition ends {A} (m : M A) (w : World) (Q : Res A → World → Prop) : Prop :=
  ∃ r w', m w = (r, w') ∧ Q r w'.

(** [d[k]], when the key is present. *)
Fixpoint dict_get (k : string) (d : tags_dict) : option string :=
  match d with
  | [] => None
  | (k', v) :: d' => if String.eqb k k' then Some v else dict_get k d'
  end.

(** Neither the persisted state nor the handle kept in memory has changed. *)
Definition unaltered : relation World := λ w w',
  persisted w' = persisted w ∧ vpc_id w' = vpc_id w.

(** The identity is what it was, in memory and in the state dictionary. *)
Definition same_identity : relation World := λ w w',
  vpc_id w' = vpc_id w ∧ _state w' !! "vpcId" = _state w !! "vpcId".

(** A run of [m] that does not complete leaves the persisted state as it
    found it. *)
Definition failure_atomic {A} (m : M A) : Prop :=
  ∀ w, (∃ a, (m w).1 = Ok a) ∨ persisted (m w).2 = persisted w.

(** The object as [__init__] builds it over what is persisted for the
    resource: no client, and the handle read from the state dictionary. *)
Definition __init__ (st : Status) (key : value) (d : gmap string value)
  : World :=
  {| state := st; access_key_id := key; _state := d;
     _client := None; vpc_id := sd_get "vpcId" VNone d;
     calls := []; writes := []; txn := None; next_txn := 0; logs := [] |}.

(** The object of a later run, built over what [w] persisted. *)
Definition reloaded (w : World) : World :=
  __init__ (state w) (access_key_id w) (_state w).

(** *** Further scenarios *)

(** An endpoint on which every VPC is available, with the answers to
    deletion, creation, tagging and attribute changes as told. *)
Definition faulty_ec2 (deleting : nat → Resp unit) (creating : Resp string)
  (tagging : Resp unit) (modifying : string → Resp unit) : EC2 :=
  {| delete_vpc := λ t _, deleting t;
     create_vpc := λ _ _ _, creating;
     describe_vpcs := steady;
     create_tags := λ _ _ _, tagging;
     enable_vpc_classic_link := λ _ _, RespOk tt;
     disable_vpc_classic_link := λ _ _, RespOk tt;
     modify_vpc_attribute := λ _ _ attr _, modifying attr;
     associate_vpc_cidr_block := λ _ _ _, RespOk "vpc-cidr-assoc-7";
     disassociate_vpc_cidr_block := λ _ _, RespOk tt |}.

(** The first deletion is refused, the VPC being in use; later ones are
    accepted. *)
Definition busy_once_env : Env :=
  demo_env
    (faulty_ec2 (λ t, match t with
                      | 0 => RespErr "DependencyViolation"
                      | S _ => RespOk tt
                      end)
       (RespOk "vpc-0b2") (RespOk tt) (λ _, RespOk tt))
    (demo_config "AKIA-OLD" "10.0.0.0/16") [].

(** No VPC can be created. *)
Definition quota_env : Env :=
  demo_env
    (faulty_ec2 (λ _, RespOk tt) (RespErr "VpcLimitExceeded") (RespOk tt)
       (λ _, RespOk tt))
    (demo_config "AKIA-OLD" "10.0.0.0/16") [handle_create].

(** VPCs are created, and tagging is refused. *)
Definition untaggable_env : Env :=
  demo_env
    (faulty_ec2 (λ _, RespOk tt) (RespOk "vpc-0b2")
       (RespErr "UnauthorizedOperation") (λ _, RespOk tt))
    (demo_config "AKIA-OLD" "10.0.0.0/16") [handle_create].

(** The attribute EnableDnsHostnames cannot be changed. *)
Definition hostnames_refused_env : Env :=
  demo_env
    (faulty_ec2 (λ _, RespOk tt) (RespOk "vpc-0b2") (RespOk tt)
       (λ attr, if String.eqb attr "EnableDnsHostnames"
                then RespErr "InvalidParameterValue" else RespOk tt))
    (demo_config "AKIA-OLD" "10.0.0.0/16") [handle_dns].

(** Descriptions are refused. *)
Definition unreadable_env : Env :=
  demo_env (scripted_ec2 (λ _, RespOk tt)
              (λ _ _, RespErr "UnauthorizedOperation"))
    (demo_config "AKIA-OLD" "10.0.0.0/16") [].

(** Every association is reported in progress. *)
Definition associating_env : Env :=
  demo_env (scripted_ec2 (λ _, RespOk tt)
              (λ _ id, RespOk [described id "available" "associating"]))
    (demo_config "AKIA-OLD" "10.0.0.0/16") [handle_associate_ipv6_cidr_block].

(** A definition that asks for no IPv6 block. *)
Definition no_ipv6_config : Config :=
  {| accessKeyId := VStr "AKIA-OLD";
     region := VStr "eu-west-1";
     cidrBlock := VStr "10.0.0.0/16";
     instanceTenancy := VStr "default";
     enableDnsSupport := VBool true;
     enableDnsHostnames := VBool true;
     enableClassicLink := VBool false;
     amazonProvidedIpv6CidrBlock := VBool false;
     tags := [("env", "demo")] |}.

Definition no_ipv6_env : Env :=
  demo_env (scripted_ec2 (λ _, RespOk tt) steady) no_ipv6_config
    [handle_associate_ipv6_cidr_block].

(** A resource that was never deployed. *)
Definition fresh_world : World := __init__ MISSING VNone ∅.

(** The object of a later run, once the deployed VPC has been destroyed. *)
Definition destroyed_world : World := reloaded (reset (demo_world UP)).

(** ** Symbolic execution *)

(** One step of evaluation: the monadic operations and the field
    projections, applied to a world, are computed; the methods stay folded
    until unfolded by name. *)
Ltac exec :=
  cbn [ret bind raise try_except assert get_state get_access_key_id_attr
       get_client get_vpc_id set_client set_vpc_id log warn log_continue
       log_end set_state set_access_key_id state_setitem state_get
       state_getitem with_db request client_attr while_true
       state access_key_id _state _client vpc_id calls writes txn next_txn
       logs negb fst snd String.eqb Ascii.eqb Bool.eqb].

Ltac exec_all :=
  cbn [ret bind raise try_except assert get_state get_access_key_id_attr
       get_client get_vpc_id set_client set_vpc_id log warn log_continue
       log_end set_state set_access_key_id state_setitem state_get
       state_getitem with_db request client_attr while_true
       state access_key_id _state _client vpc_id calls writes txn next_txn
       logs negb fst snd String.eqb Ascii.eqb Bool.eqb] in *.

(** Evaluate, using the equations among the hypotheses wherever the
    evaluation gets stuck on them. *)
Ltac run :=
  exec;
  repeat (progress (repeat match goal with
                           | H : _ = _ |- _ => rewrite H
                           | |- _ => rewrite String.eqb_refl
                           end);
          exec).

(** ** The handlers and their predecessors *)

Section Handlers.
Context (env : Env) (fuel : nat).

Lemma after_other h :
  h ≠ handle_create → after (handlers env fuel h) = [handle_create].
Proof. destruct h; simpl; congruence. Qed.

(** A plan that honours the predecessors and runs the creation handler
    runs it first. *)
Lemma create_heads_plan plan :
  respects_after env fuel plan → handle_create ∈ plan →
  ∃ rest, plan = handle_create :: rest.
Proof.
  intros Hresp Hin. destruct plan as [|h rest]; [by apply elem_of_nil in Hin|].
  destruct (decide (h = handle_create)) as [->|Hne]; [by eexists|].
  apply list_elem_of_lookup in Hin as [j Hj].
  assert (j < 0); [|lia].
  apply (Hresp 0 j h handle_create); [done|done|].
  rewrite after_other by done. apply list_elem_of_here.
Qed.

(** C9. Every registered handler other than the creation handler (dns
    config, classic link, ipv6 cidr association, tag update) lists the
    creation handler among its predecessors; hence in any plan that
    honours the declared predecessors no such handler stands before the
    creation handler. *)
Theorem non_creation_handlers_follow_creation h :
  h ≠ handle_create →
  h ∈ registered ∧
  handle_create ∈ after (handlers env fuel h) ∧
  ∀ plan i j,
    respects_after env fuel plan →
    plan !! i = Some h → plan !! j = Some handle_create → j < i.
Proof.
  intros Hne. split; [|split].
  - unfold registered. destruct h; repeat constructor.
  - rewrite after_other by done. apply list_elem_of_here.
  - intros plan i j Hresp Hi Hj.
    apply (Hresp i j h handle_create); [done|done|].
    rewrite after_other by done. apply list_elem_of_here.
Qed.
End Handlers.

(** ** Destroy *)

Section Destroy.
Context (env : Env).

Lemma _destroy_not_up w : state w ≠ UP → _destroy env w = (Ok tt, w).
Proof.
  intros H. unfold _destroy. exec. by rewrite bool_decide_eq_false_2.
Qed.

Lemma _destroy_deleted w vid :
  state w = UP → _state w !! "vpcId" = Some vid → can_connect w →
  delete_now env w vid = RespOk tt →
  _destroy env w = (Ok tt, reset (announced env w vid)).
Proof.
  unfold delete_now. intros Hs Hv Hc Hd.
  unfold _destroy, connect. exec. rewrite Hs, bool_decide_eq_true_2 by done.
  unfold reset, announced, sd_get.
  destruct Hc as [[c Hc]|(r & Hr & Ht)]; [|destruct (_client w) eqn:Hc];
    run; by rewrite <- ?app_assoc.
Qed.

Lemma _destroy_already_gone w vid :
  state w = UP → _state w !! "vpcId" = Some vid → can_connect w →
  delete_now env w vid = RespErr "InvalidVpcID.NotFound" →
  _destroy env w =
    (Ok tt,
     reset (warned (announced env w vid)
              ("warning: " +:+ "vpc " +:+ py_str vid +:+ " was already deleted"))).
Proof.
  unfold delete_now. intros Hs Hv Hc Hd.
  unfold _destroy, connect. exec. rewrite Hs, bool_decide_eq_true_2 by done.
  unfold reset, announced, warned, sd_get.
  destruct Hc as [[c Hc]|(r & Hr & Ht)]; [|destruct (_client w) eqn:Hc];
    run; by rewrite <- ?app_assoc.
Qed.

Lemma _destroy_refused w vid code :
  state w = UP → _state w !! "vpcId" = Some vid → can_connect w →
  delete_now env w vid = RespErr code → code ≠ "InvalidVpcID.NotFound" →
  _destroy env w = (Raise (ClientError code), announced env w vid).
Proof.
  unfold delete_now. intros Hs Hv Hc Hd Hcode.
  apply String.eqb_neq in Hcode.
  unfold _destroy, connect. exec. rewrite Hs, bool_decide_eq_true_2 by done.
  unfold announced, sd_get.
  destruct Hc as [[c Hc]|(r & Hr & Ht)]; [|destruct (_client w) eqn:Hc];
    by run.
Qed.

Lemma reset_cleared w k :
  k ∈ ["vpcId"; "region"; "cidrBlock"; "instanceTenancy"; "enableDnsSupport"] →
  sd_get k VNone (_state (reset w)) = VNone.
Proof.
  intros Hk. unfold sd_get, reset. exec.
  repeat (apply elem_of_cons in Hk as [->|Hk]; [by simplify_map_eq|]).
  by apply elem_of_nil in Hk.
Qed.
End Destroy.

Section DestroyClaims.
Context (env : Env).

(** C8. Destroy idempotence: when the lifecycle status is Missing (indeed
    whenever it is not Up), [destroy] issues no provider call, changes no
    persisted state (the whole object is left as it was) and returns
    [True]. *)
Theorem destroy_idempotent wipe w :
  state w ≠ UP →
  destroy env wipe w = (Ok true, w) ∧
  calls (destroy env wipe w).2 = calls w ∧
  persisted (destroy env wipe w).2 = persisted w.
Proof.
  intros H.
  assert (destroy env wipe w = (Ok true, w)) as ->; [|done].
  unfold destroy, bind. by rewrite _destroy_not_up.
Qed.

(** C2, amended. An explicit destroy acts according to the starting
    status.  When it is not Up, nothing happens.  When it is Up (with the
    identity recorded, a client obtainable, and the endpoint deleting the
    VPC or reporting it already gone), the deletion request is sent, the
    status becomes Missing, the identity is cleared, and the fields
    region, cidrBlock, instanceTenancy and enableDnsSupport are reset. *)
Theorem destroy_postcondition_by_status wipe w vid :
  (state w ≠ UP → destroy env wipe w = (Ok true, w)) ∧
  (state w = UP → _state w !! "vpcId" = Some vid → can_connect w →
   delete_now env w vid = RespOk tt ∨
   delete_now env w vid = RespErr "InvalidVpcID.NotFound" →
   ∃ w', destroy env wipe w = (Ok true, w') ∧
         calls w' = calls w ++ [DeleteVpc vid] ∧
         state w' = MISSING ∧
         resource_id w' = VNone ∧
         ∀ k, k ∈ ["region"; "cidrBlock"; "instanceTenancy"; "enableDnsSupport"] →
              sd_get k VNone (_state w') = VNone).
Proof.
  split.
  - intros H. unfold destroy, bind. by rewrite _destroy_not_up.
  - intros Hs Hv Hc [Hd|Hd]; unfold destroy, bind.
    + rewrite (_destroy_deleted env w vid) by done.
      eexists; split; [reflexivity|]. split; [done|]. split; [done|].
      split; [apply reset_cleared, list_elem_of_here|].
      intros k Hk. by apply reset_cleared, list_elem_of_further.
    + rewrite (_destroy_already_gone env w vid) by done.
      eexists; split; [reflexivity|]. split; [done|]. split; [done|].
      split; [apply reset_cleared, list_elem_of_here|].
      intros k Hk. by apply reset_cleared, list_elem_of_further.
Qed.

(** C10, amended. The [wipe] flag has no effect, and [destroy] never
    returns anything but [True]: it returns [True] when the status is not
    Up and when the endpoint deletes the VPC or reports it already gone;
    when the endpoint refuses the deletion with another error code, that
    [ClientError] propagates instead of a return value. *)
Theorem destroy_true_unless_refused wipe w :
  destroy env wipe w = destroy env (negb wipe) w ∧
  (∀ r w', destroy env wipe w = (Ok r, w') → r = true) ∧
  (state w ≠ UP → destroy env wipe w = (Ok true, w)) ∧
  (∀ vid, state w = UP → _state w !! "vpcId" = Some vid → can_connect w →
     match delete_now env w vid with
     | RespOk _ => ∃ w', destroy env wipe w = (Ok true, w')
     | RespErr code =>
         if String.eqb code "InvalidVpcID.NotFound"
         then ∃ w', destroy env wipe w = (Ok true, w')
         else ∃ w', destroy env wipe w = (Raise (ClientError code), w')
     end).
Proof.
  split; [reflexivity|]. split; [|split].
  - intros r w'. unfold destroy, bind, ret.
    destruct (_destroy env w) as [[[]| |] w0]; congruence.
  - intros H. unfold destroy, bind. by rewrite _destroy_not_up.
  - intros vid Hs Hv Hc. unfold destroy, bind.
    destruct (delete_now env w vid) as [[]|code] eqn:Hd.
    + rewrite (_destroy_deleted env w vid) by done. by eexists.
    + destruct (String.eqb code "InvalidVpcID.NotFound") eqn:Hcode.
      * apply String.eqb_eq in Hcode as ->.
        rewrite (_destroy_already_gone env w vid) by done. by eexists.
      * apply String.eqb_neq in Hcode.
        rewrite (_destroy_refused env w vid code) by done. by eexists.
Qed.
End DestroyClaims.

(** *** Instances *)

Lemma destroy_idempotent_witness :
  destroy quiet_env true (demo_world MISSING) = (Ok true, demo_world MISSING) ∧
  calls (destroy quiet_env true (demo_world MISSING)).2 = [] ∧
  persisted (destroy quiet_env true (demo_world MISSING)).2
  = persisted (demo_world MISSING).
Proof. apply (destroy_idempotent quiet_env true (demo_world MISSING)). discriminate. Defined.

Lemma destroy_postcondition_by_status_witness :
  ∃ w', destroy quiet_env false (demo_world UP) = (Ok true, w') ∧
        calls w' = [DeleteVpc (VStr "vpc-0a1")] ∧
        state w' = MISSING ∧
        resource_id w' = VNone ∧
        ∀ k, k ∈ ["region"; "cidrBlock"; "instanceTenancy"; "enableDnsSupport"] →
             sd_get k VNone (_state w') = VNone.
Proof.
  apply (proj2 (destroy_postcondition_by_status quiet_env false (demo_world UP)
                  (VStr "vpc-0a1"))).
  - reflexivity.
  - reflexivity.
  - right. exists (VStr "eu-west-1"). split; reflexivity.
  - left. reflexivity.
Defined.

(** C2 as stated fails: from Starting, destroy leaves the status and the
    identity alone; from Up, the fields enableDnsHostnames,
    enableClassicLink, amazonProvidedIpv6CidrBlock and associationId keep
    their values. *)
Lemma destroy_postcondition_counterexample :
  (state (destroy quiet_env false (demo_world STARTING)).2 = STARTING ∧
   resource_id (destroy quiet_env false (demo_world STARTING)).2
   = VStr "vpc-0a1" ∧
   ¬ destroy_postcondition quiet_env false (demo_world STARTING)) ∧
  (sd_get "enableDnsHostnames" VNone
     (_state (destroy quiet_env false (demo_world UP)).2) = VBool true ∧
   sd_get "enableClassicLink" VNone
     (_state (destroy quiet_env false (demo_world UP)).2) = VBool true ∧
   sd_get "amazonProvidedIpv6CidrBlock" VNone
     (_state (destroy quiet_env false (demo_world UP)).2) = VBool true ∧
   sd_get "associationId" VNone
     (_state (destroy quiet_env false (demo_world UP)).2)
   = VStr "vpc-cidr-assoc-3" ∧
   ¬ destroy_postcondition quiet_env false (demo_world UP)).
Proof.
  split.
  - assert (state (destroy quiet_env false (demo_world STARTING)).2 = STARTING)
      as Hs by (vm_compute; reflexivity).
    split_and!; [exact Hs|by vm_compute|].
    intros [H _]. rewrite H in Hs. discriminate.
  - assert (sd_get "enableDnsHostnames" VNone
              (_state (destroy quiet_env false (demo_world UP)).2) = VBool true)
      as Hdns by (vm_compute; reflexivity).
    split_and!; [exact Hdns|by vm_compute|by vm_compute|by vm_compute|].
    intros (_ & _ & H).
    rewrite (H "enableDnsHostnames") in Hdns; [discriminate|].
    unfold attribute_fields. repeat constructor.
Qed.

Lemma destroy_true_unless_refused_witness :
  ∃ w', destroy refusing_env true (demo_world UP)
        = (Raise (ClientError "DependencyViolation"), w').
Proof.
  apply (proj2 (proj2 (proj2
           (destroy_true_unless_refused refusing_env true (demo_world UP))))
           (VStr "vpc-0a1")).
  - reflexivity.
  - reflexivity.
  - right. exists (VStr "eu-west-1"). split; reflexivity.
Defined.

(** C10 as stated fails: a VPC that still has dependencies cannot be
    deleted, and [destroy] raises instead of returning [True]. *)
Lemma destroy_always_true_counterexample :
  (destroy refusing_env false (demo_world UP)).1
  = Raise (ClientError "DependencyViolation") ∧
  ¬ destroy_always_true refusing_env false (demo_world UP).
Proof.
  assert ((destroy refusing_env false (demo_world UP)).1
          = Raise (ClientError "DependencyViolation")) as Hraise
    by (vm_compute; reflexivity).
  split; [exact Hraise|].
  intros [w' H]. rewrite H in Hraise. discriminate.
Qed.

(** ** The waiters *)

Section Waiters.
Context (env : Env).

Lemma time_sleep_raises secs w : time_sleep secs w = (Raise (NameError "time"), w).
Proof. reflexivity. Qed.

(** X1. Whatever the state, with a client connected: when a poll reports
    the VPC pending, the waiter of the module logs a dot and enters its
    pause, which raises [NameError], the name [time] being unbound; the
    lifecycle status and the state dictionary are left as they were. *)
Lemma wait_for_vpc_available_pending fuel vpc_id w c vpc :
  _client w = Some c →
  describe_now env w vpc_id = RespOk [vpc] → State vpc = "pending" →
  wait_for_vpc_available env (S fuel) vpc_id w
  = (Raise (NameError "time"), warned (asked w (DescribeVpcs vpc_id)) ".").
Proof.
  unfold describe_now. intros Hc Hd Hp.
  unfold wait_for_vpc_available, wait_for_vpc_available_with,
    poll_vpc_available, warned, asked.
  run. rewrite time_sleep_raises. by run.
Qed.

(** With a pause that works, the loop goes round on an in-progress
    answer. *)
Lemma wait_with_pause_pending fuel vpc_id w c vpc :
  _client w = Some c →
  describe_now env w vpc_id = RespOk [vpc] → State vpc = "pending" →
  wait_for_vpc_available_with env (λ _, ret tt) (S fuel) vpc_id w
  = wait_for_vpc_available_with env (λ _, ret tt) fuel vpc_id
      (warned (asked w (DescribeVpcs vpc_id)) ".").
Proof.
  unfold describe_now. intros Hc Hd Hp.
  unfold wait_for_vpc_available_with, poll_vpc_available, warned, asked.
  cbn [while_true]. exec. rewrite Hc, Hd. exec. rewrite Hp. reflexivity.
Qed.

Lemma wait_available sleep fuel target w c vpc :
  _client w = Some c →
  describe_now env w target = RespOk [vpc] → State vpc = "available" →
  wait_for_vpc_available_with env sleep (S fuel) target w
  = (Ok tt, waited w target).
Proof.
  unfold describe_now. intros Hc Hd Hp.
  unfold wait_for_vpc_available_with, poll_vpc_available, waited.
  by run.
Qed.

Lemma append_assoc (a b d : string) : (a +:+ b) +:+ d = a +:+ (b +:+ d).
Proof.
  induction a as [|ch a IH]; [done|].
  change (String ch ((a +:+ b) +:+ d) = String ch (a +:+ (b +:+ d))).
  by rewrite IH.
Qed.

Lemma includes_here (s : string) : includes s s.
Proof.
  exists "", "". induction s as [|ch s IH]; [done|].
  change (String ch s = String ch (s +:+ "")).
  f_equal. exact IH.
Qed.

Lemma includes_append_l (a sub s : string) :
  includes sub s → includes sub (a +:+ s).
Proof.
  intros (before & after & ->). exists (a +:+ before), after.
  by rewrite append_assoc.
Qed.

(** C6. When a poll observes a status that is neither the in-progress
    value (["pending"], ["associating"]) nor the terminal value
    (["available"], ["associated"]), the waiter raises at that very poll
    (one request more in the trace, nothing else changed) an error whose
    message includes the observed status. *)
Theorem waiter_unexpected_state fuel w c vid vpc :
  _client w = Some c →
  (∀ vpc_id,
     describe_now env w vpc_id = RespOk [vpc] →
     State vpc ≠ "available" → State vpc ≠ "pending" →
     ∃ msg,
       wait_for_vpc_available env (S fuel) vpc_id w
       = (Raise (Exception msg), asked w (DescribeVpcs vpc_id)) ∧
       includes (State vpc) msg) ∧
  (∀ association_id association,
     _state w !! "vpcId" = Some vid →
     describe_now env w vid = RespOk [vpc] →
     lookup_association association_id (Ipv6CidrBlockAssociationSet vpc)
     = Some association →
     Ipv6CidrBlockState association ≠ "associated" →
     Ipv6CidrBlockState association ≠ "associating" →
     ∃ msg,
       wait_for_ipv6_cidr_association env (S fuel) association_id w
       = (Raise (Exception msg), asked w (DescribeVpcs vid)) ∧
       includes (Ipv6CidrBlockState association) msg).
Proof.
  unfold describe_now. intros Hc. split.
  - intros vpc_id Hd Ha Hp.
    apply String.eqb_neq in Ha, Hp.
    eexists. split.
    + unfold wait_for_vpc_available, wait_for_vpc_available_with,
        poll_vpc_available, asked.
      by run.
    + do 3 apply includes_append_l. apply includes_here.
  - intros association_id association Hv Hd Hl Ha Hp.
    apply String.eqb_neq in Ha, Hp.
    eexists. split.
    + unfold wait_for_ipv6_cidr_association,
        wait_for_ipv6_cidr_association_with, poll_ipv6_cidr_association,
        asked.
      by run.
    + do 3 apply includes_append_l. apply includes_here.
Qed.

(** C7. When the collection returned by a poll does not hold exactly one
    VPC, the waiter neither returns nor polls again: it raises, at that
    poll, an error that tells the caller to run a deploy with --check. *)
Theorem waiter_not_found fuel w c vid vpcs :
  _client w = Some c →
  _state w !! "vpcId" = Some vid →
  length vpcs ≠ 1 →
  (∀ vpc_id,
     describe_now env w vpc_id = RespOk vpcs →
     ∃ msg,
       wait_for_vpc_available env (S fuel) vpc_id w
       = (Raise (Exception msg), asked w (DescribeVpcs vpc_id)) ∧
       includes "please run a deploy with --check" msg) ∧
  (∀ association_id,
     describe_now env w vid = RespOk vpcs →
     ∃ msg,
       wait_for_ipv6_cidr_association env (S fuel) association_id w
       = (Raise (Exception msg), asked w (DescribeVpcs vid)) ∧
       includes "please run a deploy with --check" msg).
Proof.
  unfold describe_now. intros Hc Hv Hlen.
  assert (includes "please run a deploy with --check"
            ("couldn't find vpc " +:+ py_str vid
             +:+ ", please run a deploy with --check")) as Hmsg.
  { do 2 apply includes_append_l. by exists ", ", "". }
  split.
  - intros vpc_id Hd. eexists. split; [|exact Hmsg].
    unfold wait_for_vpc_available, wait_for_vpc_available_with,
      poll_vpc_available, asked.
    destruct vpcs as [|v1 [|v2 vs]]; simpl in Hlen; try done; by run.
  - intros association_id Hd. eexists. split; [|exact Hmsg].
    unfold wait_for_ipv6_cidr_association,
      wait_for_ipv6_cidr_association_with, poll_ipv6_cidr_association, asked.
    destruct vpcs as [|v1 [|v2 vs]]; simpl in Hlen; try done; by run.
Qed.
End Waiters.

(** *** The poll sequence pending, pending, available *)

(** C5, as the module behaves. On the poll sequence pending, pending,
    available the waiter does not return after three polls: the first
    in-progress answer sends it into [time.sleep], the module never imports
    [time], and the waiter raises [NameError] after a single poll, the
    lifecycle status still Starting. *)
Theorem waiter_pending_sequence_raises fuel :
  let r := wait_for_vpc_available pending_twice_env (S fuel) (VStr "vpc-0a1")
             (connected_world STARTING) in
  r.1 = Raise (NameError "time") ∧
  polls (calls r.2) = 1 ∧
  state r.2 = STARTING.
Proof. repeat split. Qed.

(** Were the pause to work, the same sequence would take exactly three
    polls and mark the status Up. *)
Lemma waiter_with_pause_three_polls fuel :
  let r := wait_for_vpc_available_with pending_twice_env (λ _, ret tt)
             (3 + fuel) (VStr "vpc-0a1") (connected_world STARTING) in
  r.1 = Ok tt ∧ polls (calls r.2) = 3 ∧ state r.2 = UP.
Proof. repeat split. Qed.

Lemma waiter_unexpected_state_witness :
  (∃ msg,
     wait_for_vpc_available odd_state_env 1 (VStr "vpc-0a1") (connected_world STARTING)
     = (Raise (Exception msg),
        asked (connected_world STARTING) (DescribeVpcs (VStr "vpc-0a1"))) ∧
     includes "deleting" msg) ∧
  (∃ msg,
     wait_for_ipv6_cidr_association odd_state_env 1 (VStr "vpc-cidr-assoc-7")
       (connected_world UP)
     = (Raise (Exception msg),
        asked (connected_world UP) (DescribeVpcs (VStr "vpc-0a1"))) ∧
     includes "failed" msg).
Proof.
  pose proof (waiter_unexpected_state odd_state_env 0 (connected_world STARTING)
                _ (VStr "vpc-0a1") (described (VStr "vpc-0a1") "deleting" "failed")
                eq_refl) as [H1 _].
  pose proof (waiter_unexpected_state odd_state_env 0 (connected_world UP)
                _ (VStr "vpc-0a1") (described (VStr "vpc-0a1") "deleting" "failed")
                eq_refl) as [_ H2].
  split.
  - apply (H1 (VStr "vpc-0a1")); [reflexivity|discriminate|discriminate].
  - apply (H2 (VStr "vpc-cidr-assoc-7")
             {| AssociationId := "vpc-cidr-assoc-7";
                Ipv6CidrBlock := "2600:1f16::/56";
                Ipv6CidrBlockState := "failed" |});
      [reflexivity|reflexivity|reflexivity|discriminate|discriminate].
Defined.

Lemma waiter_not_found_witness :
  (∃ msg,
     wait_for_vpc_available empty_answer_env 1 (VStr "vpc-0a1") (connected_world STARTING)
     = (Raise (Exception msg),
        asked (connected_world STARTING) (DescribeVpcs (VStr "vpc-0a1"))) ∧
     includes "please run a deploy with --check" msg) ∧
  (∃ msg,
     wait_for_ipv6_cidr_association empty_answer_env 1 (VStr "vpc-cidr-assoc-7")
       (connected_world UP)
     = (Raise (Exception msg),
        asked (connected_world UP) (DescribeVpcs (VStr "vpc-0a1"))) ∧
     includes "please run a deploy with --check" msg).
Proof.
  pose proof (waiter_not_found empty_answer_env 0 (connected_world STARTING)
                _ (VStr "vpc-0a1") [] eq_refl eq_refl) as H1.
  pose proof (waiter_not_found empty_answer_env 0 (connected_world UP)
                _ (VStr "vpc-0a1") [] eq_refl eq_refl) as H2.
  split.
  - apply H1; [simpl; lia|reflexivity].
  - apply H2; [simpl; lia|reflexivity].
Defined.

Lemma wait_for_vpc_available_pending_witness :
  wait_for_vpc_available pending_twice_env 1 (VStr "vpc-0a1")
    (connected_world STARTING)
  = (Raise (NameError "time"),
     warned (asked (connected_world STARTING) (DescribeVpcs (VStr "vpc-0a1")))
       ".").
Proof.
  eapply (wait_for_vpc_available_pending pending_twice_env 0 (VStr "vpc-0a1")
            (connected_world STARTING) _
            (described (VStr "vpc-0a1") "pending" "associated"));
    reflexivity.
Defined.

(** ** Transactional blocks *)

Section Frames.
Context (R : relation World) `{!PreOrder R}.

Lemma frames_ret {A} (a : A) : frames R (ret a).
Proof. intros w. reflexivity. Qed.

Lemma frames_raise {A} e : frames R (@raise A e).
Proof. intros w. reflexivity. Qed.

Lemma frames_bind {A B} (m : M A) (k : A → M B) :
  frames R m → (∀ a, frames R (k a)) → frames R (bind m k).
Proof.
  intros Hm Hk w. unfold bind. specialize (Hm w).
  destruct (m w) as [[a|e|] w1]; simpl in *; [|done|done].
  etrans; [exact Hm|apply Hk].
Qed.

Lemma frames_try_except {A} (body : M A) handler :
  frames R body → (∀ e, frames R (handler e)) → frames R (try_except body handler).
Proof.
  intros Hm Hk w. unfold try_except. specialize (Hm w).
  destruct (body w) as [[a|e|] w1]; simpl in *; [done| |done].
  etrans; [exact Hm|apply Hk].
Qed.

Lemma frames_while_true {A} fuel (body : M (option A)) :
  frames R body → frames R (while_true fuel body).
Proof.
  intros Hb. induction fuel as [|fuel IH]; simpl.
  - intros w. reflexivity.
  - apply frames_bind; [done|]. intros [a|]; [apply frames_ret|done].
Qed.
End Frames.

#[local] Instance quiet_preorder : PreOrder quiet.
Proof.
  split.
  - by intros w.
  - intros w1 w2 w3 (?&?&?) (?&?&?). unfold quiet. split_and!; congruence.
Qed.

#[local] Instance create_discipline_preorder : PreOrder create_discipline.
Proof.
  split.
  - intros w. split; [done|]. split; [done|]. exists []. split.
    + by rewrite app_nil_r.
    + intros e He. by apply elem_of_nil in He.
  - intros w1 w2 w3 (Ht1 & Hn1 & l1 & Hw1 & Hl1) (Ht2 & Hn2 & l2 & Hw2 & Hl2).
    split; [congruence|]. split; [lia|].
    exists (l1 ++ l2). split; [by rewrite Hw2, Hw1, app_assoc|].
    intros e [He|He]%elem_of_app.
    + destruct (Hl1 e He) as [->|(t & ? & ?)]; [by left|].
      right. exists t. split; [done|lia].
    + destruct (Hl2 e He) as [->|(t & ? & ?)]; [left; by rewrite Ht1|].
      right. exists t. split; [done|lia].
Qed.

Lemma quiet_create_discipline w w' : quiet w w' → create_discipline w w'.
Proof.
  intros (Hw & Ht & Hn). split; [done|]. split; [lia|].
  exists []. split; [by rewrite app_nil_r|].
  intros e He. by apply elem_of_nil in He.
Qed.

Lemma frames_quiet_create_discipline {A} (m : M A) :
  frames quiet m → frames create_discipline m.
Proof. intros H w. apply quiet_create_discipline, H. Qed.

Ltac quiet_prim :=
  let w := fresh "w" in
  intros w; unfold quiet; exec;
  repeat (case_match; exec_all; simplify_eq); done.

Section Quiet.
Context (env : Env).

Lemma quiet_get_state : frames quiet get_state.
Proof. quiet_prim. Qed.
Lemma quiet_get_client : frames quiet get_client.
Proof. quiet_prim. Qed.
Lemma quiet_get_vpc_id : frames quiet get_vpc_id.
Proof. quiet_prim. Qed.
Lemma quiet_get_access_key_id_attr : frames quiet get_access_key_id_attr.
Proof. quiet_prim. Qed.
Lemma quiet_set_client c : frames quiet (set_client c).
Proof. quiet_prim. Qed.
Lemma quiet_set_vpc_id v : frames quiet (set_vpc_id v).
Proof. quiet_prim. Qed.
Lemma quiet_log msg : frames quiet (log msg).
Proof. quiet_prim. Qed.
Lemma quiet_warn msg : frames quiet (warn msg).
Proof. quiet_prim. Qed.
Lemma quiet_log_continue msg : frames quiet (log_continue msg).
Proof. quiet_prim. Qed.
Lemma quiet_log_end msg : frames quiet (log_end msg).
Proof. quiet_prim. Qed.
Lemma quiet_assert b : frames quiet (assert b).
Proof. quiet_prim. Qed.
Lemma quiet_state_get k d : frames quiet (state_get k d).
Proof. quiet_prim. Qed.
Lemma quiet_state_getitem k : frames quiet (state_getitem k).
Proof. quiet_prim. Qed.
Lemma quiet_request {A} c (answer : nat → Resp A) : frames quiet (request c answer).
Proof. quiet_prim. Qed.
Lemma quiet_client_attr : frames quiet client_attr.
Proof. quiet_prim. Qed.
Lemma quiet_time_sleep secs : frames quiet (time_sleep secs).
Proof. by intros w. Qed.
Lemma quiet_connect : frames quiet (connect env).
Proof. unfold connect. quiet_prim. Qed.
End Quiet.

Create HintDb frames discriminated.
#[local] Hint Resolve quiet_get_state quiet_get_client quiet_get_vpc_id
  quiet_get_access_key_id_attr quiet_set_client quiet_set_vpc_id quiet_log
  quiet_warn quiet_log_continue quiet_log_end quiet_assert quiet_state_get
  quiet_state_getitem quiet_request quiet_client_attr quiet_time_sleep
  quiet_connect : frames.

(** Take a computation apart along its control structure. *)
Ltac frames_step :=
  lazymatch goal with
  | |- frames _ (bind _ _) => apply frames_bind; [apply _| |intros ?]
  | |- frames _ (ret _) => apply frames_ret; apply _
  | |- frames _ (raise _) => apply frames_raise; apply _
  | |- frames _ (try_except _ _) => apply frames_try_except; [apply _| |intros ?]
  | |- frames _ (while_true _ _) => apply frames_while_true; [apply _|]
  | |- frames _ (if ?b then _ else _) => destruct b
  | |- frames _ (match ?x with _ => _ end) => destruct x
  | |- frames quiet _ => solve [eauto with frames]
  | |- frames create_discipline _ =>
      apply frames_quiet_create_discipline; solve [eauto with frames]
  end.

Section Atomicity.
Context (env : Env).

Lemma quiet_poll_ipv6 sleep aid :
  (∀ n, frames quiet (sleep n)) →
  frames quiet (poll_ipv6_cidr_association env sleep aid).
Proof.
  intros Hs. unfold poll_ipv6_cidr_association.
  repeat frames_step.
Qed.

Lemma quiet_wait_for_ipv6_cidr_association fuel aid :
  frames quiet (wait_for_ipv6_cidr_association env fuel aid).
Proof.
  unfold wait_for_ipv6_cidr_association, wait_for_ipv6_cidr_association_with.
  frames_step; [|repeat frames_step].
  frames_step. apply quiet_poll_ipv6. intros n. apply quiet_time_sleep.
Qed.

(** Quiet steps followed by an atomic remainder are atomic. *)
Lemma atomic_after_quiet {A B} (m : M A) (k : A → M B) :
  frames quiet m → (∀ a, atomic_commit (k a)) → atomic_commit (bind m k).
Proof.
  intros Hm Hk w. unfold bind. destruct (Hm w) as (Hw & _ & _).
  destruct (m w) as [[a|e|] w1]; simpl in *.
  - destruct (Hk a w1) as (l & Hl & Hs). exists l. by rewrite Hl, Hw.
  - exists []. rewrite app_nil_r. split; [done|]. exists 0. by intros e' ?%elem_of_nil.
  - exists []. rewrite app_nil_r. split; [done|]. exists 0. by intros e' ?%elem_of_nil.
Qed.

Lemma atomic_dns allow : atomic_commit (realize_dns_config env allow).
Proof.
  unfold realize_dns_config.
  apply atomic_after_quiet; [eauto with frames|intros _].
  apply atomic_after_quiet; [repeat frames_step|intros _].
  apply atomic_after_quiet; [repeat frames_step|intros _].
  intros w. exec. eexists. split; [by rewrite <- app_assoc|].
  exists (next_txn w). apply Forall_forall. by repeat constructor.
Qed.

Lemma atomic_classic_link allow :
  atomic_commit (realize_classic_link_change env allow).
Proof.
  unfold realize_classic_link_change.
  apply atomic_after_quiet; [eauto with frames|intros _].
  apply atomic_after_quiet; [repeat frames_step|intros _].
  intros w. exec. eexists. split; [done|].
  exists (next_txn w). apply Forall_forall. by repeat constructor.
Qed.

Lemma atomic_ipv6 fuel allow :
  atomic_commit (realize_associate_ipv6_cidr_block env fuel allow).
Proof.
  unfold realize_associate_ipv6_cidr_block.
  apply atomic_after_quiet; [eauto with frames|intros _].
  apply atomic_after_quiet.
  { repeat frames_step. apply quiet_wait_for_ipv6_cidr_association. }
  intros [aid|] w; exec.
  - eexists. split; [by rewrite <- app_assoc|].
    exists (next_txn w). apply Forall_forall. by repeat constructor.
  - eexists. split; [done|].
    exists (next_txn w). apply Forall_forall. by repeat constructor.
Qed.

Lemma quiet_update_tag allow : frames quiet (realize_update_tag env allow).
Proof. unfold realize_update_tag. repeat frames_step. Qed.
End Atomicity.

Section CreateDiscipline.
Context (env : Env).

(** A block of plain writes obeys the discipline of the creation
    handler. *)
Ltac discipline_block :=
  let w := fresh "w" in
  intros w; unfold create_discipline; exec;
  split; [reflexivity|]; split; [lia|];
  eexists; split; [rewrite <- ?app_assoc; reflexivity|];
  apply Forall_forall;
  repeat first
    [ apply Forall_nil_2
    | apply Forall_cons_2;
      [right; eexists; split; [reflexivity|exec; lia]|] ].

Lemma discipline_region v : frames create_discipline (state_setitem "region" v).
Proof.
  intros w. unfold create_discipline. exec. split; [done|]. split; [lia|].
  exists [("region", txn w)]. split; [done|].
  intros e ->%list_elem_of_singleton. by left.
Qed.

Lemma discipline_reset_block :
  frames create_discipline
    (with_db
       (set_state MISSING ;;;
        state_setitem "vpcId" VNone ;;;
        state_setitem "region" VNone ;;;
        state_setitem "cidrBlock" VNone ;;;
        state_setitem "instanceTenancy" VNone ;;;
        state_setitem "enableDnsSupport" VNone ;;;
        state_setitem "enableDnsHostname" VNone ;;;
        state_setitem "enableVpcClassicLink" VNone)).
Proof. discipline_block. Qed.

Lemma discipline_starting_block config :
  frames create_discipline
    (with_db
       (set_state STARTING ;;;
        (let* vid := get_vpc_id in state_setitem "vpcId" vid) ;;;
        state_setitem "region" (region config) ;;;
        state_setitem "cidrBlock" (cidrBlock config) ;;;
        state_setitem "instanceTenancy" (instanceTenancy config))).
Proof. discipline_block. Qed.

Lemma discipline_up_block : frames create_discipline (with_db (set_state UP)).
Proof. discipline_block. Qed.

Lemma quiet_poll_vpc sleep target :
  (∀ n, frames quiet (sleep n)) →
  frames quiet (poll_vpc_available env sleep target).
Proof. intros Hs. unfold poll_vpc_available. repeat frames_step. Qed.

Lemma discipline_wait_for_vpc_available fuel target :
  frames create_discipline (wait_for_vpc_available env fuel target).
Proof.
  unfold wait_for_vpc_available, wait_for_vpc_available_with.
  frames_step.
  - apply frames_quiet_create_discipline, frames_while_true; [apply _|].
    apply quiet_poll_vpc, quiet_time_sleep.
  - frames_step; [frames_step|]. apply discipline_up_block.
Qed.

Lemma discipline__destroy : frames create_discipline (_destroy env).
Proof.
  unfold _destroy.
  repeat lazymatch goal with
         | |- frames create_discipline (with_db _) => apply discipline_reset_block
         | |- _ => frames_step
         end.
Qed.

Lemma discipline_realize_create_vpc fuel allow :
  frames create_discipline (realize_create_vpc env fuel allow).
Proof.
  unfold realize_create_vpc, update_tags_using. cbv zeta.
  repeat lazymatch goal with
         | |- frames create_discipline (with_db _) =>
             apply discipline_starting_block
         | |- frames create_discipline (state_setitem "region" _) =>
             apply discipline_region
         | |- frames create_discipline (_destroy _) =>
             apply discipline__destroy
         | |- frames create_discipline (wait_for_vpc_available _ _ _) =>
             apply discipline_wait_for_vpc_available
         | |- _ => frames_step
         end.
Qed.

End CreateDiscipline.

(** C4 as stated fails for the creation handler: a first creation writes
    [region] outside any block, then commits in two separate blocks. *)
Lemma per_handler_atomic_counterexample :
  writes (realize_create_vpc quiet_env 1 true (connected_world MISSING)).2
  = [("region", None);
     ("state", Some 0); ("vpcId", Some 0); ("region", Some 0);
     ("cidrBlock", Some 0); ("instanceTenancy", Some 0);
     ("state", Some 1)] ∧
  ¬ per_handler_atomic quiet_env 1 true.
Proof.
  assert (writes (realize_create_vpc quiet_env 1 true (connected_world MISSING)).2
          = [("region", None);
             ("state", Some 0); ("vpcId", Some 0); ("region", Some 0);
             ("cidrBlock", Some 0); ("instanceTenancy", Some 0);
             ("state", Some 1)]) as Hw by (vm_compute; reflexivity).
  split; [exact Hw|].
  intros H.
  destruct (H handle_create (connected_world MISSING)) as (l & Hl & t & Ht).
  vm_compute in Hl. subst l.
  specialize (Ht ("region", None) (list_elem_of_here _ _)).
  discriminate.
Qed.

(** ** Stepping through a method *)

Section Returns.
Context {A B : Type}.

Lemma returns_ret (a : A) w Q : Q a w → returns (ret a) w Q.
Proof. intros H. by exists a, w. Qed.

Lemma returns_eq (m : M A) w a w' (Q : A → World → Prop) :
  m w = (Ok a, w') → Q a w' → returns m w Q.
Proof. intros H HQ. by exists a, w'. Qed.

Lemma returns_bind (m : M A) (k : A → M B) w Q :
  returns m w (λ a w1, returns (k a) w1 Q) → returns (bind m k) w Q.
Proof.
  intros (a & w1 & Hm & b & w2 & Hk & HQ). exists b, w2.
  split; [|done]. cbn [bind]. by rewrite Hm.
Qed.

Lemma returns_mono (m : M A) w (Q Q' : A → World → Prop) :
  returns m w Q → (∀ a w', Q a w' → Q' a w') → returns m w Q'.
Proof. intros (a & w' & Hm & HQ) HQQ'. exists a, w'. auto. Qed.

Lemma returns_try_except (m : M A) handler w Q :
  returns m w Q → returns (try_except m handler) w Q.
Proof.
  intros (a & w' & Hm & HQ). exists a, w'. split; [|done].
  cbn [try_except]. by rewrite Hm.
Qed.

End Returns.

(** ** Convergence against a cooperative endpoint *)

Section Cooperative.
Context (env : Env) (new aid : string) (Hcoop : cooperative env new aid).

(** Evaluate, answering every request as the cooperative endpoint does. *)
Ltac coop_run :=
  exec;
  repeat (progress
            (repeat first
               [ match goal with H : _ = _ |- _ => rewrite H end
               | rewrite String.eqb_refl
               | rewrite (coop_create _ _ _ Hcoop)
               | rewrite (coop_tags _ _ _ Hcoop)
               | rewrite (coop_enable _ _ _ Hcoop)
               | rewrite (coop_disable _ _ _ Hcoop)
               | rewrite (coop_modify _ _ _ Hcoop)
               | rewrite (coop_associate _ _ _ Hcoop)
               | rewrite (coop_disassociate _ _ _ Hcoop)
               | rewrite (coop_region _ _ _ Hcoop)
               | rewrite time_sleep_raises
               | rewrite lookup_insert_eq
               | rewrite lookup_insert_ne by done
               | match goal with
                 | |- context [describe_vpcs (ec2 env) ?t (VStr new)] =>
                     let vpc := fresh "vpc" in
                     let a := fresh "a" in
                     let Hd := fresh "Hd" in
                     let Hav := fresh "Hav" in
                     let Hl := fresh "Hl" in
                     let Has := fresh "Has" in
                     destruct (coop_describe _ _ _ Hcoop t)
                       as (vpc & a & Hd & Hav & Hl & Has);
                     rewrite Hd
                 end ]);
          exec).

(** Conclude that the resulting world serves [id] and extends the trace. *)
Ltac conclude :=
  unfold returns; eexists _, _; split; [reflexivity|]; split;
  [ unfold serving; exec; split_and!;
    [ done | by simplify_map_eq | left; by eexists ]
  | unfold extends; exec;
    first [ exists []; by rewrite app_nil_r
          | rewrite <- ?app_assoc; by eexists ] ].

Ltac connect_cases Hc w :=
  let c := fresh "c" in
  let r := fresh "r" in
  let Hr := fresh "Hr" in
  let Ht := fresh "Ht" in
  destruct Hc as [[c Hc]|(r & Hr & Ht)];
  [|destruct (_client w) eqn:Hc].

Lemma dns_serving id allow w :
  serving id w →
  returns (realize_dns_config env allow) w
    (λ _ w', serving id w' ∧ extends w w').
Proof.
  intros (Hs & Hv & Hc). unfold returns, realize_dns_config, connect.
  connect_cases Hc w; coop_run; conclude.
Qed.

Lemma update_tag_serving id allow w :
  serving id w →
  returns (realize_update_tag env allow) w
    (λ _ w', serving id w' ∧ extends w w').
Proof.
  intros (Hs & Hv & Hc). unfold returns, realize_update_tag, connect.
  connect_cases Hc w; coop_run; conclude.
Qed.

Lemma classic_link_serving id allow w :
  serving id w →
  returns (realize_classic_link_change env allow) w
    (λ _ w', serving id w' ∧ extends w w').
Proof.
  intros (Hs & Hv & Hc). unfold returns, realize_classic_link_change, connect.
  destruct (truthy (enableClassicLink (get_defn env))) eqn:Hcl;
    [|destruct (bool_decide (enableClassicLink (get_defn env) = VBool false)
                && truthy (sd_get "enableClassicLink" VNone (_state w)))
        eqn:Hdis];
    connect_cases Hc w; coop_run; conclude.
Qed.

Lemma ipv6_serving fuel allow w :
  serving new w →
  returns (realize_associate_ipv6_cidr_block env (S fuel) allow) w
    (λ _ w', serving new w' ∧ extends w w').
Proof.
  intros (Hs & Hv & Hc).
  unfold returns, realize_associate_ipv6_cidr_block, connect,
    wait_for_ipv6_cidr_association, wait_for_ipv6_cidr_association_with,
    poll_ipv6_cidr_association.
  cbv zeta.
  destruct (truthy (amazonProvidedIpv6CidrBlock (get_defn env))) eqn:Hassign.
  - connect_cases Hc w; coop_run; conclude.
  - exec. unfold sd_get.
    destruct (_state w !! "associationId") as [old|] eqn:Hold;
      [destruct (truthy old) eqn:Htold|];
      connect_cases Hc w; coop_run; conclude.
Qed.

Lemma extends_trans w1 w2 w3 : extends w1 w2 → extends w2 w3 → extends w1 w3.
Proof.
  intros [t1 H1] [t2 H2]. exists (t1 ++ t2). by rewrite H2, H1, app_assoc.
Qed.

(** Reduce the projections of explicit worlds, and nothing else. *)
Ltac tidy :=
  cbn beta iota;
  cbn [state access_key_id _state _client vpc_id calls writes txn next_txn
       logs fst snd negb reset announced warned waited
       String.eqb Ascii.eqb Bool.eqb].

(** One step: split a sequence, or evaluate the operation at the head. *)
Ltac wp_step :=
  lazymatch goal with
  | |- returns (bind _ _) _ _ => apply returns_bind
  | |- returns (ret _) _ _ => apply returns_ret
  | |- returns (connect _) _ _ => unfold connect at 1
  | |- returns (update_tags_using _ _ _ _) _ _ => unfold update_tags_using at 1
  | |- returns (if _ then _ else _) _ _ => fail "condition"
  | |- returns (match _ with _ => _ end) _ _ => fail "scrutinee"
  | |- returns (try_except _ _) _ _ => fail "try"
  | |- returns (_destroy _) _ _ => fail "destroy"
  | |- returns (wait_for_vpc_available _ _ _) _ _ => fail "wait"
  | |- returns (realize_create_vpc _ _ _) _ _ => fail "method"
  | |- returns (realize_dns_config _ _) _ _ => fail "method"
  | |- returns (realize_classic_link_change _ _) _ _ => fail "method"
  | |- returns (request (DescribeVpcs (VStr new)) _) ?W _ =>
      let vpc := fresh "vpc" in
      let a := fresh "a" in
      let Hd := fresh "Hd" in
      destruct (coop_describe _ _ _ Hcoop (length (calls W)))
        as (vpc & a & Hd & _);
      cbn [calls] in Hd;
      eapply returns_eq; [coop_run; reflexivity|]
  | |- returns _ _ _ => eapply returns_eq; [coop_run; reflexivity|]
  end;
  tidy.

Ltac settle :=
  repeat first
    [ wp_step
    | progress (repeat first
                  [ rewrite (coop_region _ _ _ Hcoop)
                  | rewrite lookup_insert_eq
                  | rewrite lookup_insert_ne by done
                  | rewrite bool_decide_eq_true_2 by done
                  | progress unfold sd_get
                  | progress cbn [truthy]
                  | match goal with H : _ = _ |- _ => rewrite H end ]);
      tidy ].

(** The waiter, when the cooperative endpoint is asked about [new]. *)
Ltac wait_new fuel :=
  lazymatch goal with
  | |- returns (wait_for_vpc_available _ _ (VStr new)) ?W _ =>
      let vpc := fresh "vpc" in
      let a := fresh "a" in
      let Hd := fresh "Hd" in
      let Hav := fresh "Hav" in
      destruct (coop_describe _ _ _ Hcoop (length (calls W)))
        as (vpc & a & Hd & Hav & _);
      eapply returns_eq;
      [ by eapply (wait_available env time_sleep fuel (VStr new) W) |];
      tidy
  end.

Lemma create_serving id fuel w :
  serving id w →
  returns (realize_create_vpc env (S fuel) true) w
    (λ _ w', serving new w' ∧
             ∃ tr, calls w' =
                   calls w ++ DeleteVpc (VStr id)
                     :: CreateVpc (cidrBlock (get_defn env))
                          (instanceTenancy (get_defn env)) :: tr).
Proof.
  intros (Hs & Hv & Hc).
  unfold realize_create_vpc. cbv zeta.
  settle.
  assert (can_connect
            {| state := UP; access_key_id := access_key_id w;
               _state := _state w; _client := _client w; vpc_id := vpc_id w;
               calls := calls w; writes := writes w; txn := txn w;
               next_txn := next_txn w;
               logs := logs w ++ ["warning: " +:+ "vpc definition changed, recreating..."] |})
    as Hc' by done.
  destruct (coop_delete _ _ _ Hcoop (length (calls w)) (VStr id)) as [Hd|Hd];
    (eapply returns_eq;
     [ first [ by apply (_destroy_deleted _ _ (VStr id))
             | by apply (_destroy_already_gone _ _ (VStr id)) ] |]);
    tidy; settle; wait_new fuel;
    (split;
     [ unfold serving; tidy; split_and!;
       [ done | by simplify_map_eq | left; by eexists ]
     | rewrite <- !app_assoc; by eexists ]).
Qed.

Lemma handler_serving h fuel w :
  serving new w →
  returns (handle (handlers env (S fuel) h) true) w
    (λ _ w', serving new w' ∧ extends w w').
Proof.
  intros Hw. destruct h; cbn [handle handlers].
  - eapply returns_mono; [by apply (create_serving new)|].
    intros _ w' (Hs & tr & Htr). split; [done|]. by eexists.
  - by apply dns_serving.
  - by apply classic_link_serving.
  - by apply ipv6_serving.
  - by apply update_tag_serving.
Qed.

Lemma run_plan_serving plan fuel w :
  serving new w →
  returns (run_plan env (S fuel) plan true) w
    (λ _ w', serving new w' ∧ extends w w').
Proof.
  revert w. induction plan as [|h plan IH]; intros w Hw; cbn [run_plan].
  - apply returns_ret. split; [done|]. exists []. by rewrite app_nil_r.
  - apply returns_bind.
    eapply returns_mono; [by apply handler_serving|].
    intros _ w1 (Hs1 & He1). cbn beta.
    eapply returns_mono; [by apply IH|].
    intros _ w2 (Hs2 & He2). split; [done|]. by eapply extends_trans.
Qed.

Lemma ensure_state_up_serving fuel check w :
  serving new w →
  returns (ensure_state_up env (S fuel) check) w
    (λ _ w', serving new w' ∧ extends w w').
Proof.
  intros (Hs & Hv & Hc).
  pose proof (coop_fresh _ _ _ Hcoop) as Hne%String.eqb_neq.
  unfold ensure_state_up. cbv zeta.
  destruct check; connect_cases Hc w; settle;
    try (apply returns_try_except; settle);
    (split;
     [ unfold serving; tidy; split_and!;
       [ done | by simplify_map_eq | left; by eexists ]
     | unfold extends; tidy;
       first [ exists []; by rewrite app_nil_r
             | rewrite <- ?app_assoc; by eexists ] ]).
Qed.

Lemma serving_resource_id id w : serving id w → resource_id w = VStr id.
Proof. intros (_ & Hv & _). unfold resource_id, sd_get. by rewrite Hv. Qed.

(** A pass that recreates: the creation handler heads the plan. *)
Lemma create_recreates fuel defn check allow_reboot w old rest :
  truthy (resolved_key env defn) = true →
  serving old w →
  diff_plan env defn (_state w) = handle_create :: rest →
  returns (create env (S fuel) defn check allow_reboot true) w
    (λ _ w', serving new w' ∧
             ∃ tr, calls w' =
                   calls w ++ DeleteVpc (VStr old)
                     :: CreateVpc (cidrBlock (get_defn env))
                          (instanceTenancy (get_defn env)) :: tr).
Proof.
  unfold resolved_key. intros Hkey (Hs & Hv & Hc) Hplan.
  unfold create. settle. cbn [run_plan handle handlers]. settle.
  eapply returns_mono; [by apply (create_serving old)|].
  intros _ w1 (Hs1 & tr1 & Htr1). cbn beta.
  eapply returns_mono; [by apply run_plan_serving|].
  intros _ w2 (Hs2 & tr2 & Htr2). cbn beta.
  eapply returns_mono; [by apply ensure_state_up_serving|].
  intros _ w3 (Hs3 & tr3 & Htr3). split; [done|].
  exists (tr1 ++ tr2 ++ tr3).
  rewrite Htr3, Htr2, Htr1. cbn [calls]. by rewrite <- !app_assoc.
Qed.

(** *** Recovery from a VPC deleted behind the back of the tool *)



Section Drift.
Context (old : string) (Hold : old ≠ "").
Context (Hgone : ∀ t, describe_vpcs (ec2 env) t (VStr old)
                      = RespErr "InvalidVpcID.NotFound").


End Drift.
End Cooperative.

(** ** Recreate gating and drift recovery *)

(** C1, amended. Let the plan of a configuration honour the declared
    predecessors and contain the creation handler, let the access key be
    resolvable and the lifecycle status be Up.  With [allow_recreate] false,
    [create] raises an error that names --allow-recreate, sends no request,
    and leaves the status and the state dictionary as they were; of the
    persisted state only the access key is overwritten, with the resolved
    one.  With [allow_recreate] true and an endpoint that accepts the
    requests and reports the new VPC available at once, [create] deletes
    the old VPC, creates a new one, and ends with status Up and an identity
    that differs from the old one. *)
Theorem recreate_gating env fuel defn check allow_reboot w :
  truthy (resolved_key env defn) = true →
  state w = UP →
  handle_create ∈ diff_plan env defn (_state w) →
  respects_after env fuel (diff_plan env defn (_state w)) →
  (∃ msg w',
     create env fuel defn check allow_reboot false w
     = (Raise (Exception msg), w') ∧
     includes "--allow-recreate" msg ∧
     calls w' = calls w ∧
     state w' = state w ∧ _state w' = _state w ∧
     access_key_id w' = resolved_key env defn) ∧
  (∀ old new aid,
     cooperative env new aid →
     _state w !! "vpcId" = Some (VStr old) → can_connect w → new ≠ old →
     ∃ w' tr,
       create env (S fuel) defn check allow_reboot true w = (Ok tt, w') ∧
       state w' = UP ∧
       resource_id w' = VStr new ∧ resource_id w' ≠ resource_id w ∧
       calls w' =
       calls w ++ DeleteVpc (VStr old)
         :: CreateVpc (cidrBlock (get_defn env))
              (instanceTenancy (get_defn env)) :: tr).
Proof.
  intros Hkey Hs Hin Hresp.
  destruct (create_heads_plan env fuel _ Hresp Hin) as [rest Hplan].
  split.
  - unfold resolved_key in *. eexists _, _. split.
    + unfold create. exec. rewrite Hkey. exec. rewrite Hplan.
      cbn [run_plan handle handlers]. unfold realize_create_vpc. exec.
      rewrite Hs, bool_decide_eq_true_2 by done. exec. reflexivity.
    + split; [|done].
      do 3 apply includes_append_l.
      by exists "use ", " if you want to create a new one".
  - intros old new aid Hcoop Hv Hc Hne.
    destruct (create_recreates env new aid Hcoop fuel defn check allow_reboot
                w old rest Hkey) as ([] & w' & Hrun & Hserv & tr & Htr);
      [by split_and!|done|].
    exists w', tr. split; [done|].
    split; [by destruct Hserv|].
    rewrite (serving_resource_id new w' Hserv).
    split; [done|]. split; [|done].
    unfold resource_id, sd_get. rewrite Hv. congruence.
Qed.


(** *** Instances *)

Lemma recreate_env_cooperative :
  cooperative recreate_env "vpc-0b2" "vpc-cidr-assoc-7".
Proof.
  split; try done.
  - intros t v. by left.
  - intros t. by eexists _, _.
Qed.


Lemma recreate_plan_respects fuel :
  respects_after recreate_env fuel [handle_create; handle_dns].
Proof.
  intros i j h p Hi Hj Hp.
  destruct i as [|[|i]]; simplify_eq/=.
  - by apply elem_of_nil in Hp.
  - apply list_elem_of_singleton in Hp as ->.
    destruct j as [|[|j]]; simplify_eq/=. lia.
Qed.

Lemma non_creation_handlers_follow_creation_witness :
  handle_dns ∈ registered ∧
  handle_create ∈ after (handlers recreate_env 1 handle_dns) ∧
  ∀ plan i j,
    respects_after recreate_env 1 plan →
    plan !! i = Some handle_dns → plan !! j = Some handle_create → j < i.
Proof.
  apply (non_creation_handlers_follow_creation recreate_env 1 handle_dns).
  discriminate.
Defined.

Lemma recreate_gating_witness :
  (∃ msg w',
     create recreate_env 1 (demo_config "AKIA-NEW" "10.1.0.0/16") true false
       false (demo_world UP)
     = (Raise (Exception msg), w') ∧
     includes "--allow-recreate" msg ∧
     calls w' = [] ∧
     state w' = UP ∧ _state w' = _state (demo_world UP) ∧
     access_key_id w' = VStr "AKIA-NEW") ∧
  (∃ w' tr,
     create recreate_env 2 (demo_config "AKIA-NEW" "10.1.0.0/16") true false
       true (demo_world UP)
     = (Ok tt, w') ∧
     state w' = UP ∧
     resource_id w' = VStr "vpc-0b2" ∧
     resource_id w' ≠ resource_id (demo_world UP) ∧
     calls w' =
     [] ++ DeleteVpc (VStr "vpc-0a1")
       :: CreateVpc (VStr "10.1.0.0/16") (VStr "default") :: tr).
Proof.
  pose proof (recreate_gating recreate_env 1
                (demo_config "AKIA-NEW" "10.1.0.0/16") true false
                (demo_world UP) eq_refl eq_refl
                (list_elem_of_here _ _) (recreate_plan_respects 1))
    as [Hgate Hrecreate].
  split; [exact Hgate|].
  apply (Hrecreate "vpc-0a1" "vpc-0b2" "vpc-cidr-assoc-7").
  - exact recreate_env_cooperative.
  - reflexivity.
  - right. exists (VStr "eu-west-1"). split; reflexivity.
  - discriminate.
Defined.

(** C1 as stated fails: when the definition carries another access key
    than the one recorded, the refused pass has already overwritten the
    persisted key. *)
Lemma gate_keeps_persisted_counterexample :
  access_key_id (demo_world UP) = VStr "AKIA-OLD" ∧
  access_key_id
    (create recreate_env 1 (demo_config "AKIA-NEW" "10.1.0.0/16")
       true false false (demo_world UP)).2
  = VStr "AKIA-NEW" ∧
  ¬ gate_keeps_persisted recreate_env 1 (demo_config "AKIA-NEW" "10.1.0.0/16")
      true false (demo_world UP).
Proof.
  assert (access_key_id
            (create recreate_env 1 (demo_config "AKIA-NEW" "10.1.0.0/16")
               true false false (demo_world UP)).2
          = VStr "AKIA-NEW") as Hkey by (vm_compute; reflexivity).
  split_and!; [reflexivity|exact Hkey|].
  intros (msg & w' & Hrun & Hp).
  rewrite Hrun in Hkey. cbn [snd] in Hkey.
  apply (f_equal (λ p, p.1.2)) in Hp. cbn in Hp.
  congruence.
Qed.



(** * Further properties of the module *)

(** ** Stepping to any outcome *)

Section Ends.
Context {A B : Type}.

Lemma ends_eq (m : M A) w r w' (Q : Res A → World → Prop) :
  m w = (r, w') → Q r w' → ends m w Q.
Proof. intros H HQ. by exists r, w'. Qed.

Lemma ends_bind (m : M A) (k : A → M B) w (Q : Res B → World → Prop) :
  ends m w (λ r w1,
              match r with
              | Ok a => ends (k a) w1 Q
              | Raise e => Q (Raise e) w1
              | OutOfFuel => Q OutOfFuel w1
              end) →
  ends (bind m k) w Q.
Proof.
  intros (r & w1 & Hm & H). unfold ends. cbn [bind]. rewrite Hm.
  destruct r as [a|e|]; [exact H|by eexists _, _..].
Qed.

Lemma ends_try_except (m : M A) handler w (Q : Res A → World → Prop) :
  ends m w (λ r w1,
              match r with
              | Raise e => ends (handler e) w1 Q
              | other => Q other w1
              end) →
  ends (try_except m handler) w Q.
Proof.
  intros (r & w1 & Hm & H). unfold ends. cbn [try_except]. rewrite Hm.
  destruct r as [a|e|]; [by eexists _, _|exact H|by eexists _, _].
Qed.

Lemma ends_outcome (m : M A) w r (Q : World → Prop) :
  ends m w (λ r' w', r' = r ∧ Q w') → ∃ w', m w = (r, w') ∧ Q w'.
Proof. intros (r' & w' & Hm & -> & H). by exists w'. Qed.

Lemma ends_returns (m : M A) w (Q : A → World → Prop)
    (Q' : Res A → World → Prop) :
  returns m w Q → (∀ a w', Q a w' → Q' (Ok a) w') → ends m w Q'.
Proof. intros (a & w' & Hm & H) HQ. exists (Ok a), w'. auto. Qed.
End Ends.

(** Reduce the projections of explicit worlds, and nothing else. *)
Ltac tidy_world :=
  cbn beta iota;
  cbn [state access_key_id _state _client vpc_id calls writes txn next_txn
       logs fst snd negb reset announced warned waited asked
       String.eqb Ascii.eqb Bool.eqb].

(** Evaluate one operation, reading the state dictionary through its
    updates and the endpoint through the hypotheses. *)
Ltac eval_head :=
  run;
  repeat (progress (repeat first
                      [ rewrite lookup_insert_eq
                      | rewrite lookup_insert_ne by done
                      | rewrite length_app
                      | rewrite time_sleep_raises
                      | progress cbn [length]
                      | match goal with H : ∀ _, _ = _ |- _ => rewrite H end
                      | match goal with H : ∀ _ _, _ = _ |- _ => rewrite H end
                      | match goal with
                        | H : ∀ _ _ _, _ = _ |- _ => rewrite H
                        end ]);
          run).

(** One step: split a sequence, or evaluate the operation at the head; the
    methods stay folded. *)
Ltac ends_step :=
  lazymatch goal with
  | |- ends (bind _ _) _ _ => apply ends_bind
  | |- ends (try_except _ _) _ _ => apply ends_try_except
  | |- ends (connect _) _ _ => unfold connect at 1
  | |- ends (update_tags_using _ _ _ _) _ _ => unfold update_tags_using at 1
  | |- ends (while_true (S _) _) _ _ => cbn [while_true]
  | |- ends (if _ then _ else _) _ _ => fail "condition"
  | |- ends (match _ with _ => _ end) _ _ => fail "scrutinee"
  | |- ends (_destroy _) _ _ => fail "method"
  | |- ends (wait_for_vpc_available _ _ _) _ _ => fail "method"
  | |- ends (wait_for_vpc_available_with _ _ _ _) _ _ => fail "method"
  | |- ends (wait_for_ipv6_cidr_association _ _ _) _ _ => fail "method"
  | |- ends (poll_vpc_available _ _ _) _ _ => fail "method"
  | |- ends (poll_ipv6_cidr_association _ _ _) _ _ => fail "method"
  | |- ends (realize_create_vpc _ _ _) _ _ => fail "method"
  | |- ends (realize_dns_config _ _) _ _ => fail "method"
  | |- ends (realize_classic_link_change _ _) _ _ => fail "method"
  | |- ends (realize_associate_ipv6_cidr_block _ _ _) _ _ => fail "method"
  | |- ends (realize_update_tag _ _) _ _ => fail "method"
  | |- ends (ensure_state_up _ _ _) _ _ => fail "method"
  | |- ends (run_plan _ _ _ _) _ _ => fail "method"
  | |- ends (handle _ _) _ _ => fail "method"
  | |- ends (while_true _ _) _ _ => fail "loop"
  | |- ends _ _ _ => eapply ends_eq; [eval_head; reflexivity|]
  end;
  tidy_world.

(** Step as far as the hypotheses decide the conditions. *)
Ltac ends_run :=
  repeat first
    [ ends_step
    | progress (repeat first
                  [ rewrite lookup_insert_eq
                  | rewrite lookup_insert_ne by done
                  | rewrite bool_decide_eq_true_2 by done
                  | rewrite bool_decide_eq_false_2 by done
                  | rewrite length_app
                  | progress unfold sd_get
                  | progress cbn [truthy length]
                  | match goal with H : _ = _ |- _ => rewrite H end ]);
      tidy_world ].

(** The waiters, once unfolded, are stepped through like any sequence. *)
Ltac unfold_waiters :=
  unfold wait_for_vpc_available, wait_for_vpc_available_with,
    poll_vpc_available, wait_for_ipv6_cidr_association,
    wait_for_ipv6_cidr_association_with, poll_ipv6_cidr_association.

(** ** The write log of the handlers *)

Lemma ends_world {A} (m : M A) w (Q : World → Prop) :
  ends m w (λ _ w', Q w') → Q (m w).2.
Proof. intros (r & w' & Hm & H). by rewrite Hm. Qed.

Section Log.
Context (env : Env).

Lemma realize_create_vpc_with_helper fuel allow :
  realize_create_vpc env fuel allow
  = realize_create_vpc_with env (update_tags_using env) fuel allow.
Proof. reflexivity. Qed.

Lemma destroy_log w :
  txn (_destroy env w).2 = txn w ∧
  ((writes (_destroy env w).2 = writes w ∧
    next_txn (_destroy env w).2 = next_txn w) ∨
   ((_destroy env w).1 = Ok tt ∧
    writes (_destroy env w).2 = writes w ++ reset_writes (next_txn w) ∧
    next_txn (_destroy env w).2 = S (next_txn w))).
Proof.
  unfold _destroy, connect, reset_writes. exec.
  repeat (match goal with
          | |- context [bool_decide ?P] => destruct (bool_decide P) eqn:?
          | |- context [match _client ?w with _ => _ end] =>
              destruct (_client w) eqn:?
          | |- context [match _state ?w !! ?k with _ => _ end] =>
              destruct (_state w !! k) eqn:?
          | |- context [truthy ?v] => destruct (truthy v) eqn:?
          | |- context [match delete_vpc ?e ?t ?v with _ => _ end] =>
              destruct (delete_vpc e t v) as [[]|?] eqn:?
          | |- context [String.eqb ?a ?b] => destruct (String.eqb a b) eqn:?
          end; exec).
  all: split; [done|].
  all: first [ left; by split
             | right; split_and!; [done| |done]; by rewrite <- ?app_assoc ].
Qed.

Lemma wait_log fuel target w :
  writes (wait_for_vpc_available env fuel target w).2 = writes w ∨
  writes (wait_for_vpc_available env fuel target w).2
  = writes w ++ up_writes (next_txn w).
Proof.
  unfold wait_for_vpc_available, wait_for_vpc_available_with. cbn [bind].
  assert (frames quiet (while_true fuel (poll_vpc_available env time_sleep target)))
    as Hq.
  { apply frames_while_true; [apply _|]. apply quiet_poll_vpc, quiet_time_sleep. }
  destruct (Hq w) as (Hw & Ht & Hn).
  destruct (while_true fuel (poll_vpc_available env time_sleep target) w)
    as [[[]|e|] w1]; cbn [fst snd] in *; [|by left..].
  right. exec. unfold up_writes. by rewrite Hw, Hn.
Qed.

(** One step towards the write log: as [ends_step], and the unknown
    answers are taken apart. *)
Ltac log_step :=
  lazymatch goal with
  | |- ends (_destroy ?e) ?W _ =>
      let r := fresh "r" in
      let wd := fresh "wd" in
      let Hd := fresh "Hd" in
      let Ht := fresh "Ht" in
      let Hl := fresh "Hl" in
      destruct (destroy_log W) as [Ht Hl];
      destruct (_destroy e W) as [r wd] eqn:Hd;
      cbn [fst snd] in Ht, Hl;
      eapply ends_eq; [exact Hd|];
      destruct r as [[]| |]
  | |- ends (wait_for_vpc_available ?e ?f ?t) ?W _ =>
      let r := fresh "r" in
      let ww := fresh "ww" in
      let Hd := fresh "Hd" in
      let Hl := fresh "Hl" in
      pose proof (wait_log f t W) as Hl;
      destruct (wait_for_vpc_available e f t W) as [r ww] eqn:Hd;
      cbn [fst snd] in Hl;
      eapply ends_eq; [exact Hd|]
  | |- ends (request _ ?answer) ?W _ =>
      let x := eval cbn beta in (answer (length (calls W))) in
      let x := eval cbn [calls] in x in
      destruct x eqn:?
  | |- ends (assert ?b) _ _ => destruct b eqn:?
  | |- ends (if ?b then _ else _) _ _ => destruct b eqn:?
  | |- ends (match ?x with _ => _ end) _ _ => destruct x eqn:?
  end;
  tidy_world.

(** The call of the tag helper, of which nothing is known. *)
Ltac helper_step :=
  lazymatch goal with
  | |- ends (?u (tag_updater ?e) ?tgs true) ?W _ =>
      let r := fresh "r" in
      let w3 := fresh "w3" in
      let Hu := fresh "Hu" in
      destruct (u (tag_updater e) tgs true W) as [r w3] eqn:Hu;
      eapply ends_eq; [exact Hu|];
      destruct r as [[]| |]
  end;
  tidy_world.

Ltac log_run :=
  repeat first [ends_step | log_step | helper_step | progress ends_run].

(** Two write logs are equal once the known ones are spelled out. *)
Ltac log_eq :=
  tidy_world;
  repeat match goal with
         | H : writes _ = _ |- _ => rewrite H
         | H : next_txn _ = _ |- _ => rewrite H
         end;
  unfold reset_writes, starting_writes, up_writes;
  rewrite <- ?app_assoc, ?app_nil_r; cbn [app]; reflexivity.

Ltac log_stage :=
  cbv zeta;
  first
    [ left; log_eq
    | right; left; log_eq
    | right; right;
      lazymatch goal with
      | Hu : _ _ _ true ?W2 = (_, _) |- _ =>
          exists W2; split; [log_eq|];
          rewrite Hu; cbn [snd];
          first [ left; reflexivity | left; assumption | right; assumption ]
      end ].

Ltac close_log :=
  repeat match goal with
         | H : (_ ∧ _) ∨ (_ ∧ _ ∧ _) |- _ =>
             destruct H as [[? ?]|(? & ? & ?)]
         | H : writes _ = _ ∨ writes _ = _ |- _ => destruct H
         end;
  try discriminate;
  unfold creation_log;
  first [ exists false; log_stage | exists true; log_stage ].

Lemma creation_log_holds fuel allow update_tags w :
  creation_log env update_tags w
    (realize_create_vpc_with env update_tags fuel allow w).2.
Proof.
  apply ends_world. unfold realize_create_vpc_with. cbv zeta.
  log_run.
  all: close_log.
Qed.

(** C4, amended. The dns-config, classic-link and ipv6-association
    handlers write their fields within a single transactional block per
    invocation, and the tag-update handler writes nothing.  The creation
    handler is [realize_create_vpc_with] at the tag helper of the model,
    and for every tag helper its own writes are, in this order and each at
    most once: on a recreate, the reset block of [_destroy]; [region],
    once, ahead of [connect] and outside any block of its own; the
    Starting commit, in one block; and, after the tag helper, the Up
    commit of the waiter, in one more block.  An invocation that does not
    complete stops after one of these steps. *)
Theorem handler_commits fuel allow :
  atomic_commit (realize_dns_config env allow) ∧
  atomic_commit (realize_classic_link_change env allow) ∧
  atomic_commit (realize_associate_ipv6_cidr_block env fuel allow) ∧
  frames quiet (realize_update_tag env allow) ∧
  realize_create_vpc env fuel allow
  = realize_create_vpc_with env (update_tags_using env) fuel allow ∧
  ∀ update_tags w,
    creation_log env update_tags w
      (realize_create_vpc_with env update_tags fuel allow w).2.
Proof.
  split_and!.
  - apply atomic_dns.
  - apply atomic_classic_link.
  - apply atomic_ipv6.
  - apply quiet_update_tag.
  - reflexivity.
  - intros update_tags w. apply creation_log_holds.
Qed.
End Log.

(** ** Connecting *)

Section Connect.
Context (env : Env).

Lemma connect_fails w :
  _client w = None → truthy (sd_get "region" VNone (_state w)) = false →
  connect env w
  = (Raise (match _state w !! "region" with
            | None => KeyError "region"
            | Some _ => AssertionError
            end), w).
Proof.
  intros Hc Hr. unfold connect. exec. rewrite Hc. exec. unfold sd_get in Hr.
  destruct (_state w !! "region") as [r|]; [|done]. exec. by rewrite Hr.
Qed.

(** X2. Without a client and without a region in the state dictionary (or
    with an empty one, as [_destroy] leaves it), every handler but the
    creation handler fails in [connect], before any request and any write:
    with [KeyError] when the key is absent, with [AssertionError] when the
    value is empty.  The object is left exactly as it was. *)
Theorem handlers_need_region fuel allow h w :
  h ≠ handle_create →
  _client w = None → truthy (sd_get "region" VNone (_state w)) = false →
  handle (handlers env fuel h) allow w
  = (Raise (match _state w !! "region" with
            | None => KeyError "region"
            | Some _ => AssertionError
            end), w).
Proof.
  intros Hh Hc Hr. destruct h; [done|..]; cbn [handle handlers].
  - unfold realize_dns_config. cbn [bind]. by rewrite connect_fails.
  - unfold realize_classic_link_change. cbn [bind]. by rewrite connect_fails.
  - unfold realize_associate_ipv6_cidr_block. cbn [bind].
    by rewrite connect_fails.
  - unfold realize_update_tag. cbn [bind]. by rewrite connect_fails.
Qed.

(** X3. When [connect] returns, it has sent nothing and persisted nothing;
    a client is in place, built (if there was none) from the stored region,
    which is not empty, and from the credentials fetched for the stored
    access key; and from then on [connect] does nothing, whatever happens
    to the stored region or access key: the client is never rebuilt. *)
Theorem connect_once w w1 :
  connect env w = (Ok tt, w1) →
  persisted w1 = persisted w ∧ calls w1 = calls w ∧ vpc_id w1 = vpc_id w ∧
  (∃ c, _client w1 = Some c ∧
        (_client w = None →
         region_name c = sd_get "region" VNone (_state w) ∧
         truthy (region_name c) = true ∧
         (aws_access_key_id c, aws_secret_access_key c)
         = fetch_aws_secret_key env (access_key_id w))) ∧
  (∀ w2, _client w2 = _client w1 → connect env w2 = (Ok tt, w2)).
Proof.
  unfold connect. exec. unfold sd_get.
  destruct (_client w) as [c|] eqn:Hc; exec.
  - intros Heq; simplify_eq. split_and!; try done.
    + exists c. by split.
    + intros w2 Hw2. by rewrite Hw2, Hc.
  - destruct (_state w !! "region") as [r|] eqn:Hr; exec; [|done].
    destruct (truthy r) eqn:Ht; exec; [|done]. rewrite Hr. exec.
    intros Heq; simplify_eq. exec. split_and!; try done.
    + eexists. split; [done|]. intros _. cbn. split_and!; try done.
      by destruct (fetch_aws_secret_key env (access_key_id w)).
    + intros w2 Hw2. by rewrite Hw2.
Qed.
End Connect.

Lemma handlers_need_region_witness :
  handle (handlers quiet_env 1 handle_dns) true destroyed_world
  = (Raise AssertionError, destroyed_world).
Proof.
  apply (handlers_need_region quiet_env 1 true handle_dns destroyed_world).
  - discriminate.
  - reflexivity.
  - reflexivity.
Defined.

Lemma connect_once_witness :
  persisted (connected_world UP) = persisted (demo_world UP) ∧
  calls (connected_world UP) = calls (demo_world UP) ∧
  vpc_id (connected_world UP) = vpc_id (demo_world UP) ∧
  (∃ c, _client (connected_world UP) = Some c ∧
        (_client (demo_world UP) = None →
         region_name c = sd_get "region" VNone (_state (demo_world UP)) ∧
         truthy (region_name c) = true ∧
         (aws_access_key_id c, aws_secret_access_key c)
         = fetch_aws_secret_key quiet_env (access_key_id (demo_world UP)))) ∧
  (∀ w2, _client w2 = _client (connected_world UP) →
         connect quiet_env w2 = (Ok tt, w2)).
Proof.
  apply (connect_once quiet_env (demo_world UP) (connected_world UP)).
  reflexivity.
Defined.

(** ** Creation *)

Section Creation.
Context (env : Env).

(** X4. When neither the definition nor the environment yields an access
    key, [create] raises its configuration error before the plan is
    computed: no handler runs and no request is sent, the status and the
    state dictionary are as they were.  The persisted access key, however,
    has already been overwritten with the empty one. *)
Theorem create_needs_access_key fuel defn check allow_reboot allow_recreate w :
  truthy (resolved_key env defn) = false →
  ∃ w',
    create env fuel defn check allow_reboot allow_recreate w
    = (Raise (Exception
                "please set 'accessKeyId', $EC2_ACCESS_KEY or $AWS_ACCESS_KEY_ID"),
       w') ∧
    access_key_id w' = resolved_key env defn ∧
    state w' = state w ∧ _state w' = _state w ∧
    calls w' = calls w ∧ _client w' = _client w ∧ vpc_id w' = vpc_id w.
Proof.
  unfold resolved_key. intros Hkey. unfold create. exec. rewrite Hkey. exec.
  eexists. split; [reflexivity|]. done.
Qed.

(** The creation handler on a resource that is not up, against an endpoint
    that creates [new], accepts the tags and reports [new] available. *)
Lemma create_vpc_fresh fuel allow w new vpc :
  state w ≠ UP → truthy (region (get_defn env)) = true →
  create_vpc (ec2 env) (length (calls w)) (cidrBlock (get_defn env))
    (instanceTenancy (get_defn env)) = RespOk new →
  create_tags (ec2 env) (length (calls w) + 1) (VStr new)
    (dict_update (tags (get_defn env)) (get_common_tags env)) = RespOk tt →
  describe_vpcs (ec2 env) (length (calls w) + 2) (VStr new) = RespOk [vpc] →
  State vpc = "available" →
  ∃ w',
    realize_create_vpc env (S fuel) allow w = (Ok tt, w') ∧
    state w' = UP ∧ vpc_id w' = VStr new ∧ is_Some (_client w') ∧
    _state w'
    = <["instanceTenancy" := instanceTenancy (get_defn env)]>
        (<["cidrBlock" := cidrBlock (get_defn env)]>
           (<["region" := region (get_defn env)]>
              (<["vpcId" := VStr new]>
                 (<["region" := region (get_defn env)]> (_state w))))) ∧
    calls w' = calls w ++ [CreateVpc (cidrBlock (get_defn env))
                             (instanceTenancy (get_defn env));
                           CreateTags (VStr new)
                             (dict_update (tags (get_defn env))
                                (get_common_tags env));
                           DescribeVpcs (VStr new)].
Proof.
  intros Hs Hr Hcreate Htags Hd Hav.
  replace (length (calls w) + 2) with (length (calls w) + 1 + 1) in Hd by lia.
  apply ends_outcome.
  unfold realize_create_vpc. cbv zeta.
  destruct (_client w) eqn:Hc; ends_run.
  all: unfold_waiters; ends_run.
  all: split_and!; try done; try (by eexists).
  all: by rewrite <- !app_assoc.
Qed.

(** X5. First creation.  On a resource that is not up, whatever
    [allow_recreate] says, when the endpoint creates [new], accepts its
    tagging and reports [new] available at the first poll, the creation
    handler returns with the status Up, sends exactly the creation, one
    tagging request addressed to [new] and one poll, in that order, and
    records the region, the CIDR block and the tenancy of the definition.
    The handle in memory and the persisted identity agree: an object built
    later over the persisted state holds the same handle. *)
Theorem first_creation fuel allow w new vpc :
  state w ≠ UP → truthy (region (get_defn env)) = true →
  create_vpc (ec2 env) (length (calls w)) (cidrBlock (get_defn env))
    (instanceTenancy (get_defn env)) = RespOk new →
  (∀ tgs, create_tags (ec2 env) (length (calls w) + 1) (VStr new) tgs
          = RespOk tt) →
  describe_vpcs (ec2 env) (length (calls w) + 2) (VStr new) = RespOk [vpc] →
  State vpc = "available" →
  ∃ w' tgs,
    realize_create_vpc env (S fuel) allow w = (Ok tt, w') ∧
    state w' = UP ∧ resource_id w' = VStr new ∧
    vpc_id w' = VStr new ∧ vpc_id (reloaded w') = VStr new ∧
    sd_get "region" VNone (_state w') = region (get_defn env) ∧
    sd_get "cidrBlock" VNone (_state w') = cidrBlock (get_defn env) ∧
    sd_get "instanceTenancy" VNone (_state w') = instanceTenancy (get_defn env) ∧
    calls w' = calls w ++ [CreateVpc (cidrBlock (get_defn env))
                             (instanceTenancy (get_defn env));
                           CreateTags (VStr new) tgs;
                           DescribeVpcs (VStr new)].
Proof.
  intros Hs Hr Hcreate Htags Hd Hav.
  destruct (create_vpc_fresh fuel allow w new vpc)
    as (w' & Heq & Hup & Hid & Hcl & Hst & Htr); try done.
  exists w'. eexists.
  unfold reloaded, __init__, resource_id, sd_get. cbn [vpc_id].
  rewrite Hst. split_and!; try done; by simplify_map_eq.
Qed.

(** X7. When the endpoint refuses the creation, the creation handler
    raises that [ClientError]; the status and the handle in memory are
    what they were, and of the state dictionary only the region has been
    written, ahead of [connect]. *)
Theorem creation_refused fuel allow w code :
  state w ≠ UP → truthy (region (get_defn env)) = true →
  create_vpc (ec2 env) (length (calls w)) (cidrBlock (get_defn env))
    (instanceTenancy (get_defn env)) = RespErr code →
  ∃ w',
    realize_create_vpc env fuel allow w = (Raise (ClientError code), w') ∧
    state w' = state w ∧ vpc_id w' = vpc_id w ∧
    _state w' = <["region" := region (get_defn env)]> (_state w) ∧
    calls w' = calls w ++ [CreateVpc (cidrBlock (get_defn env))
                             (instanceTenancy (get_defn env))].
Proof.
  intros Hs Hr Hcreate. apply ends_outcome.
  unfold realize_create_vpc. cbv zeta.
  destruct (_client w) eqn:Hc; ends_run; by split_and!.
Qed.

(** X8. The identity is committed before the tagging: when the endpoint
    creates [new] and then refuses the tags, the creation handler raises
    that [ClientError] with the status Starting and the identity [new]
    already persisted, and no poll has been sent. *)
Theorem creation_interrupted_by_tagging fuel allow w new code :
  state w ≠ UP → truthy (region (get_defn env)) = true →
  create_vpc (ec2 env) (length (calls w)) (cidrBlock (get_defn env))
    (instanceTenancy (get_defn env)) = RespOk new →
  create_tags (ec2 env) (length (calls w) + 1) (VStr new)
    (dict_update (tags (get_defn env)) (get_common_tags env)) = RespErr code →
  ∃ w',
    realize_create_vpc env fuel allow w = (Raise (ClientError code), w') ∧
    state w' = STARTING ∧ resource_id w' = VStr new ∧ vpc_id w' = VStr new ∧
    calls w' = calls w ++ [CreateVpc (cidrBlock (get_defn env))
                             (instanceTenancy (get_defn env));
                           CreateTags (VStr new)
                             (dict_update (tags (get_defn env))
                                (get_common_tags env))].
Proof.
  intros Hs Hr Hcreate Htags. apply ends_outcome.
  unfold realize_create_vpc. cbv zeta.
  destruct (_client w) eqn:Hc; ends_run.
  all: split_and!; try done.
  all: try (unfold resource_id, sd_get; tidy_world; by simplify_map_eq).
  all: by rewrite <- app_assoc.
Qed.

(** X9. An interrupted creation is resumed, not repeated.  With an
    identity recorded, a status that is not Up and an empty plan, when the
    endpoint reports the recorded VPC available, [create] returns with the
    status Up and the identity unchanged; it sends one poll, preceded by
    the description of the check when [check] is set, and nothing else: no
    second VPC is created, and the tags are not applied. *)
Theorem interrupted_creation_resumes fuel defn check allow_reboot
    allow_recreate w id vpc :
  truthy (resolved_key env defn) = true →
  truthy (region (get_defn env)) = true →
  state w ≠ UP → _state w !! "vpcId" = Some (VStr id) → id ≠ "" →
  diff_plan env defn (_state w) = [] →
  (∀ t, describe_vpcs (ec2 env) t (VStr id) = RespOk [vpc]) →
  State vpc = "available" →
  ∃ w',
    create env (S fuel) defn check allow_reboot allow_recreate w = (Ok tt, w') ∧
    state w' = UP ∧ resource_id w' = VStr id ∧ vpc_id w' = vpc_id w ∧
    calls w' = calls w ++ (if check then [DescribeVpcs (VStr id)] else [])
                 ++ [DescribeVpcs (VStr id)].
Proof.
  unfold resolved_key. intros Hkey Hr Hs Hv Hid%String.eqb_neq Hplan Hd Hav.
  apply ends_outcome.
  unfold create, ensure_state_up. cbv zeta.
  ends_run. cbn [run_plan].
  destruct check, (_client w) eqn:Hc; ends_run.
  all: unfold_waiters; ends_run.
  all: split_and!; try done.
  all: try (unfold resource_id, sd_get; tidy_world; by simplify_map_eq).
  all: by rewrite <- ?app_assoc.
Qed.

(** X10. A pass with nothing to do.  With the status Up and an empty
    plan, [create] returns normally; it stores the resolved access key and
    the region of the definition and changes nothing else.  Without
    [check], or without a recorded identity, it sends no request at all;
    with [check] it sends the one description, and whatever the endpoint
    answers to it (short of an error) is ignored. *)
Theorem create_idle fuel defn check allow_reboot allow_recreate w :
  truthy (resolved_key env defn) = true →
  truthy (region (get_defn env)) = true →
  state w = UP → diff_plan env defn (_state w) = [] →
  (∀ vid, check = true → _state w !! "vpcId" = Some vid → truthy vid = true →
          ∃ answer, describe_now env w vid = RespOk answer) →
  ∃ w',
    create env fuel defn check allow_reboot allow_recreate w = (Ok tt, w') ∧
    state w' = UP ∧ access_key_id w' = resolved_key env defn ∧
    _state w' = <["region" := region (get_defn env)]> (_state w) ∧
    vpc_id w' = vpc_id w ∧
    calls w' = calls w ++ (if check && truthy (resource_id w)
                           then [DescribeVpcs (resource_id w)] else []).
Proof.
  unfold resolved_key, describe_now, resource_id.
  intros Hkey Hr Hs Hplan Hd.
  apply ends_outcome.
  unfold create, ensure_state_up. cbv zeta.
  ends_run. cbn [run_plan].
  destruct (_state w !! "vpcId") as [vid|] eqn:Hv;
    [destruct (truthy vid) eqn:Hvid|];
    (destruct check;
     [ try (destruct (Hd vid eq_refl eq_refl Hvid) as [answer Hanswer]) |]);
    destruct (_client w) eqn:Hc; ends_run.
  all: cbn [andb]; rewrite ?app_nil_r; by split_and!.
Qed.

(** X11. An error of the check other than "not found" is not taken for a
    deletion: [ensure_state_up] re-raises it after the one description,
    with the status and the handle as they were and only the region
    written; nothing is deleted or created. *)
Theorem check_failure_propagates fuel w vid code :
  truthy (region (get_defn env)) = true →
  _state w !! "vpcId" = Some vid → truthy vid = true →
  describe_now env w vid = RespErr code → code ≠ "InvalidVpcID.NotFound" →
  ∃ w',
    ensure_state_up env fuel true w = (Raise (ClientError code), w') ∧
    state w' = state w ∧ vpc_id w' = vpc_id w ∧
    _state w' = <["region" := region (get_defn env)]> (_state w) ∧
    calls w' = calls w ++ [DescribeVpcs vid].
Proof.
  unfold describe_now. intros Hr Hv Hvid Hd Hcode%String.eqb_neq.
  apply ends_outcome.
  unfold ensure_state_up. cbv zeta.
  destruct (_client w) eqn:Hc; ends_run; by split_and!.
Qed.

(** X12. A recreation stops at a refused deletion: with the status Up and
    [allow_recreate] set, when the endpoint refuses to delete the recorded
    VPC, the creation handler raises that [ClientError]; the deletion is
    the only request sent, nothing is created, and the persisted state
    still describes the old VPC. *)
Theorem recreation_stops_when_deletion_refused fuel w vid code :
  state w = UP → _state w !! "vpcId" = Some vid → can_connect w →
  delete_now env w vid = RespErr code → code ≠ "InvalidVpcID.NotFound" →
  ∃ w',
    realize_create_vpc env fuel true w = (Raise (ClientError code), w') ∧
    persisted w' = persisted w ∧ vpc_id w' = vpc_id w ∧
    calls w' = calls w ++ [DeleteVpc vid].
Proof.
  intros Hs Hv Hc Hd Hcode. apply ends_outcome.
  unfold realize_create_vpc. cbv zeta. ends_run.
  eapply ends_eq.
  { apply (_destroy_refused env _ vid code); try done. }
  tidy_world. unfold persisted. tidy_world.
  split_and!; try done. by rewrite Hs.
Qed.

(** X13. A recreation carries attributes of the old VPC over to the new
    one: after the creation handler has replaced the recorded VPC by
    [new], the fields enableDnsHostnames, enableClassicLink,
    amazonProvidedIpv6CidrBlock and associationId of the state dictionary
    still hold what was recorded for the old VPC. *)
Theorem recreation_keeps_stale_attributes fuel w old new vpc k :
  state w = UP → _state w !! "vpcId" = Some old → can_connect w →
  truthy (region (get_defn env)) = true →
  delete_now env w old = RespOk tt →
  create_vpc (ec2 env) (length (calls w) + 1) (cidrBlock (get_defn env))
    (instanceTenancy (get_defn env)) = RespOk new →
  create_tags (ec2 env) (length (calls w) + 2) (VStr new)
    (dict_update (tags (get_defn env)) (get_common_tags env)) = RespOk tt →
  describe_vpcs (ec2 env) (length (calls w) + 3) (VStr new) = RespOk [vpc] →
  State vpc = "available" →
  k ∈ ["enableDnsHostnames"; "enableClassicLink";
       "amazonProvidedIpv6CidrBlock"; "associationId"] →
  ∃ w',
    realize_create_vpc env (S fuel) true w = (Ok tt, w') ∧
    state w' = UP ∧ resource_id w' = VStr new ∧
    _state w' !! k = _state w !! k.
Proof.
  intros Hs Hv Hc Hr Hdel Hcreate Htags Hd Hav Hk.
  replace (length (calls w) + 2) with (length (calls w) + 1 + 1) in Htags by lia.
  replace (length (calls w) + 3) with (length (calls w) + 1 + 1 + 1) in Hd by lia.
  apply ends_outcome.
  unfold realize_create_vpc. cbv zeta. ends_run.
  eapply ends_eq.
  { apply (_destroy_deleted env _ old); try done. }
  tidy_world. ends_run.
  unfold_waiters. ends_run.
  split_and!; try done.
  - unfold resource_id, sd_get. by simplify_map_eq.
  - repeat (apply elem_of_cons in Hk as [->|Hk]; [by simplify_map_eq|]).
    by apply elem_of_nil in Hk.
Qed.
End Creation.

(** The handlers that follow the creation handler in a plan, against a
    cooperative endpoint. *)
Lemma run_rest_serving env new aid rest fuel allow w :
  cooperative env new aid →
  handle_create ∉ rest → serving new w →
  returns (run_plan env (S fuel) rest allow) w
    (λ _ w', serving new w' ∧ extends w w').
Proof.
  intros Hcoop. revert w.
  induction rest as [|h rest IH]; intros w Hrest Hw; cbn [run_plan].
  - apply returns_ret. split; [done|]. exists []. by rewrite app_nil_r.
  - apply not_elem_of_cons in Hrest as [Hh Hrest].
    apply returns_bind.
    eapply returns_mono.
    { destruct h; [done|..]; cbn [handle handlers].
      - by eapply dns_serving.
      - by eapply classic_link_serving.
      - by eapply ipv6_serving.
      - by eapply update_tag_serving. }
    intros _ w1 (Hs1 & He1). cbn beta.
    eapply returns_mono; [by apply IH|].
    intros _ w2 (Hs2 & He2). split; [done|]. by eapply extends_trans.
Qed.

(** X6. First deployment.  On a resource that is not up, with a
    resolvable access key and a plan that starts with the creation handler
    and does not repeat it, against an endpoint that accepts every request
    and reports the new VPC available at once, [create] returns, whatever
    [check] and [allow_recreate] say, with the status Up and the identity
    of the new VPC; its first three requests are the creation, the tagging
    of the new VPC and one poll. *)
Theorem create_converges_from_scratch env new aid fuel defn check allow_reboot
    allow_recreate w rest :
  cooperative env new aid →
  truthy (resolved_key env defn) = true → state w ≠ UP →
  diff_plan env defn (_state w) = handle_create :: rest →
  handle_create ∉ rest →
  ∃ w',
    create env (S fuel) defn check allow_reboot allow_recreate w = (Ok tt, w') ∧
    serving new w' ∧
    ∃ tr, calls w' = calls w ++ CreateVpc (cidrBlock (get_defn env))
                                  (instanceTenancy (get_defn env))
                                :: CreateTags (VStr new)
                                     (dict_update (tags (get_defn env))
                                        (get_common_tags env))
                                :: DescribeVpcs (VStr new) :: tr.
Proof.
  unfold resolved_key. intros Hcoop Hkey Hs Hplan Hrest.
  apply ends_outcome. unfold create. ends_run.
  cbn [run_plan handle handlers]. ends_run.
  match goal with |- ends _ ?W _ => set (w0 := W) end.
  destruct (coop_describe _ _ _ Hcoop (length (calls w0) + 2))
    as (vpc & a & Hd & Hav & _).
  destruct (create_vpc_fresh env fuel allow_recreate w0 new vpc)
    as (w1 & Heq & Hup & Hid & Hcl & Hst & Htr);
    [done|apply Hcoop|apply Hcoop|apply Hcoop|done|done|].
  eapply ends_eq; [exact Heq|]. cbn beta iota.
  assert (serving new w1) as Hw1.
  { split_and!; [done|rewrite Hst; by simplify_map_eq|by left]. }
  eapply ends_returns; [by eapply run_rest_serving|].
  intros _ w2 (Hw2 & tr2 & Htr2).
  eapply ends_returns; [by apply (ensure_state_up_serving env new aid)|].
  intros [] w3 ((Hs3 & Hv3 & Hc3) & tr3 & Htr3).
  split; [done|]. split; [by split_and!|].
  exists (tr2 ++ tr3). rewrite Htr3, Htr2, Htr. subst w0. cbn [calls].
  by rewrite <- !app_assoc.
Qed.

(** *** Instances *)

Lemma create_needs_access_key_witness :
  ∃ w',
    create quiet_env 1 (demo_config "" "10.0.0.0/16") true false false
      (demo_world UP)
    = (Raise (Exception
                "please set 'accessKeyId', $EC2_ACCESS_KEY or $AWS_ACCESS_KEY_ID"),
       w') ∧
    access_key_id w' = VNone ∧
    state w' = UP ∧ _state w' = _state (demo_world UP) ∧
    calls w' = [] ∧ _client w' = None ∧ vpc_id w' = VStr "vpc-0a1".
Proof.
  apply (create_needs_access_key quiet_env 1 (demo_config "" "10.0.0.0/16")
           true false false (demo_world UP)).
  reflexivity.
Defined.

Lemma first_creation_witness :
  ∃ w' tgs,
    realize_create_vpc quiet_env 1 false fresh_world = (Ok tt, w') ∧
    state w' = UP ∧ resource_id w' = VStr "vpc-0b2" ∧
    vpc_id w' = VStr "vpc-0b2" ∧ vpc_id (reloaded w') = VStr "vpc-0b2" ∧
    sd_get "region" VNone (_state w') = VStr "eu-west-1" ∧
    sd_get "cidrBlock" VNone (_state w') = VStr "10.0.0.0/16" ∧
    sd_get "instanceTenancy" VNone (_state w') = VStr "default" ∧
    calls w' = [] ++ [CreateVpc (VStr "10.0.0.0/16") (VStr "default");
                      CreateTags (VStr "vpc-0b2") tgs;
                      DescribeVpcs (VStr "vpc-0b2")].
Proof.
  apply (first_creation quiet_env 0 false fresh_world "vpc-0b2"
           (described (VStr "vpc-0b2") "available" "associated")).
  - discriminate.
  - reflexivity.
  - reflexivity.
  - intros tgs. reflexivity.
  - reflexivity.
  - reflexivity.
Defined.

Lemma create_converges_from_scratch_witness :
  ∃ w',
    create recreate_env 1 (demo_config "AKIA-NEW" "10.1.0.0/16") false false
      false fresh_world
    = (Ok tt, w') ∧
    serving "vpc-0b2" w' ∧
    ∃ tr, calls w' = [] ++ CreateVpc (VStr "10.1.0.0/16") (VStr "default")
                       :: CreateTags (VStr "vpc-0b2")
                            [("env", "demo"); ("CharonNetworkUUID", "6f1c")]
                       :: DescribeVpcs (VStr "vpc-0b2") :: tr.
Proof.
  apply (create_converges_from_scratch recreate_env "vpc-0b2"
           "vpc-cidr-assoc-7" 0 (demo_config "AKIA-NEW" "10.1.0.0/16")
           false false false fresh_world [handle_dns]).
  - exact recreate_env_cooperative.
  - reflexivity.
  - discriminate.
  - reflexivity.
  - intros Hin. apply list_elem_of_singleton in Hin. discriminate.
Defined.

Lemma creation_refused_witness :
  ∃ w',
    realize_create_vpc quota_env 1 false fresh_world
    = (Raise (ClientError "VpcLimitExceeded"), w') ∧
    state w' = MISSING ∧ vpc_id w' = VNone ∧
    _state w' = <["region" := VStr "eu-west-1"]> ∅ ∧
    calls w' = [] ++ [CreateVpc (VStr "10.0.0.0/16") (VStr "default")].
Proof.
  apply (creation_refused quota_env 1 false fresh_world "VpcLimitExceeded").
  - discriminate.
  - reflexivity.
  - reflexivity.
Defined.

Lemma creation_interrupted_by_tagging_witness :
  ∃ w',
    realize_create_vpc untaggable_env 1 false fresh_world
    = (Raise (ClientError "UnauthorizedOperation"), w') ∧
    state w' = STARTING ∧ resource_id w' = VStr "vpc-0b2" ∧
    vpc_id w' = VStr "vpc-0b2" ∧
    calls w' = [] ++ [CreateVpc (VStr "10.0.0.0/16") (VStr "default");
                      CreateTags (VStr "vpc-0b2")
                        [("env", "demo"); ("CharonNetworkUUID", "6f1c")]].
Proof.
  apply (creation_interrupted_by_tagging untaggable_env 1 false fresh_world
           "vpc-0b2" "UnauthorizedOperation").
  - discriminate.
  - reflexivity.
  - reflexivity.
  - reflexivity.
Defined.

Lemma interrupted_creation_resumes_witness :
  ∃ w',
    create quiet_env 1 (demo_config "AKIA-OLD" "10.0.0.0/16") true false false
      (demo_world STARTING)
    = (Ok tt, w') ∧
    state w' = UP ∧ resource_id w' = VStr "vpc-0a1" ∧
    vpc_id w' = VStr "vpc-0a1" ∧
    calls w' = [] ++ [DescribeVpcs (VStr "vpc-0a1")]
                 ++ [DescribeVpcs (VStr "vpc-0a1")].
Proof.
  apply (interrupted_creation_resumes quiet_env 0
           (demo_config "AKIA-OLD" "10.0.0.0/16") true false false
           (demo_world STARTING) "vpc-0a1"
           (described (VStr "vpc-0a1") "available" "associated")).
  - reflexivity.
  - reflexivity.
  - discriminate.
  - reflexivity.
  - discriminate.
  - reflexivity.
  - intros t. reflexivity.
  - reflexivity.
Defined.

Lemma create_idle_witness :
  ∃ w',
    create odd_state_env 1 (demo_config "AKIA-OLD" "10.0.0.0/16") true false
      false (demo_world UP)
    = (Ok tt, w') ∧
    state w' = UP ∧ access_key_id w' = VStr "AKIA-OLD" ∧
    _state w' = <["region" := VStr "eu-west-1"]> (_state (demo_world UP)) ∧
    vpc_id w' = VStr "vpc-0a1" ∧
    calls w' = [] ++ [DescribeVpcs (VStr "vpc-0a1")].
Proof.
  apply (create_idle odd_state_env 1 (demo_config "AKIA-OLD" "10.0.0.0/16")
           true false false (demo_world UP)).
  - reflexivity.
  - reflexivity.
  - reflexivity.
  - reflexivity.
  - intros vid _ _ _. eexists. reflexivity.
Defined.

Lemma check_failure_propagates_witness :
  ∃ w',
    ensure_state_up unreadable_env 1 true (demo_world UP)
    = (Raise (ClientError "UnauthorizedOperation"), w') ∧
    state w' = UP ∧ vpc_id w' = VStr "vpc-0a1" ∧
    _state w' = <["region" := VStr "eu-west-1"]> (_state (demo_world UP)) ∧
    calls w' = [] ++ [DescribeVpcs (VStr "vpc-0a1")].
Proof.
  apply (check_failure_propagates unreadable_env 1 (demo_world UP)
           (VStr "vpc-0a1") "UnauthorizedOperation").
  - reflexivity.
  - reflexivity.
  - reflexivity.
  - reflexivity.
  - discriminate.
Defined.

Lemma recreation_stops_when_deletion_refused_witness :
  ∃ w',
    realize_create_vpc refusing_env 1 true (demo_world UP)
    = (Raise (ClientError "DependencyViolation"), w') ∧
    persisted w' = persisted (demo_world UP) ∧ vpc_id w' = VStr "vpc-0a1" ∧
    calls w' = [] ++ [DeleteVpc (VStr "vpc-0a1")].
Proof.
  apply (recreation_stops_when_deletion_refused refusing_env 1 (demo_world UP)
           (VStr "vpc-0a1") "DependencyViolation").
  - reflexivity.
  - reflexivity.
  - right. exists (VStr "eu-west-1"). split; reflexivity.
  - reflexivity.
  - discriminate.
Defined.

Lemma recreation_keeps_stale_attributes_witness :
  ∃ w',
    realize_create_vpc quiet_env 1 true (demo_world UP) = (Ok tt, w') ∧
    state w' = UP ∧ resource_id w' = VStr "vpc-0b2" ∧
    _state w' !! "associationId" = Some (VStr "vpc-cidr-assoc-3").
Proof.
  apply (recreation_keeps_stale_attributes quiet_env 0 (demo_world UP)
           (VStr "vpc-0a1") "vpc-0b2"
           (described (VStr "vpc-0b2") "available" "associated")
           "associationId").
  - reflexivity.
  - reflexivity.
  - right. exists (VStr "eu-west-1"). split; reflexivity.
  - reflexivity.
  - reflexivity.
  - reflexivity.
  - reflexivity.
  - reflexivity.
  - reflexivity.
  - do 3 apply list_elem_of_further. apply list_elem_of_here.
Defined.

(** ** Destroying *)

Section Destroying.
Context (env : Env).

(** X14. A refused deletion can be retried.  When the endpoint refuses
    the deletion with an error other than "not found", [destroy] raises
    and leaves the persisted state untouched, so the resource is still
    recorded as up; when the endpoint accepts the next deletion, a second
    [destroy] on the same object sends the request again, returns [True]
    and ends with the status Missing and no identity. *)
Theorem destroy_refused_then_retried wipe w vid code :
  state w = UP → _state w !! "vpcId" = Some vid → can_connect w →
  delete_now env w vid = RespErr code → code ≠ "InvalidVpcID.NotFound" →
  delete_vpc (ec2 env) (length (calls w) + 1) vid = RespOk tt →
  ∃ w1 w2,
    destroy env wipe w = (Raise (ClientError code), w1) ∧
    persisted w1 = persisted w ∧ writes w1 = writes w ∧
    calls w1 = calls w ++ [DeleteVpc vid] ∧
    destroy env wipe w1 = (Ok true, w2) ∧
    state w2 = MISSING ∧ resource_id w2 = VNone ∧
    calls w2 = calls w ++ [DeleteVpc vid; DeleteVpc vid].
Proof.
  intros Hs Hv Hc Hd Hcode Hd1.
  exists (announced env w vid). eexists.
  split_and!; try done.
  - unfold destroy. cbn [bind]. by rewrite (_destroy_refused env w vid code).
  - unfold destroy. cbn [bind].
    rewrite (_destroy_deleted env (announced env w vid) vid); try done.
    + left. unfold announced. cbn [_client]. destruct (_client w); by eexists.
    + unfold delete_now, announced. cbn [calls].
      by rewrite length_app.
  - done.
  - apply reset_cleared, list_elem_of_here.
  - cbn [reset announced calls]. by rewrite <- app_assoc.
Qed.

(** X15. [_destroy] clears the persisted identity and leaves the rest of
    the object alone: after a [destroy] that has deleted the VPC (or found
    it already gone), the object still holds the handle of the deleted VPC
    and its client, whereas an object built later over the persisted state
    has no handle and the status Missing. *)
Theorem destroy_leaves_stale_handle wipe w vid :
  state w = UP → _state w !! "vpcId" = Some vid → can_connect w →
  delete_now env w vid = RespOk tt ∨
  delete_now env w vid = RespErr "InvalidVpcID.NotFound" →
  ∃ w',
    destroy env wipe w = (Ok true, w') ∧
    vpc_id w' = vpc_id w ∧ is_Some (_client w') ∧
    vpc_id (reloaded w') = VNone ∧ state (reloaded w') = MISSING.
Proof.
  intros Hs Hv Hc [Hd|Hd]; unfold destroy; cbn [bind].
  - rewrite (_destroy_deleted env w vid) by done.
    eexists. split; [reflexivity|]. split_and!; try done.
    + cbn [reset announced _client]. destruct (_client w); by eexists.
    + unfold reloaded, __init__. cbn [vpc_id].
      apply reset_cleared, list_elem_of_here.
  - rewrite (_destroy_already_gone env w vid) by done.
    eexists. split; [reflexivity|]. split_and!; try done.
    + cbn [reset warned announced _client]. destruct (_client w); by eexists.
    + unfold reloaded, __init__. cbn [vpc_id].
      apply reset_cleared, list_elem_of_here.
Qed.
End Destroying.

Lemma destroy_refused_then_retried_witness :
  ∃ w1 w2,
    destroy busy_once_env false (demo_world UP)
    = (Raise (ClientError "DependencyViolation"), w1) ∧
    persisted w1 = persisted (demo_world UP) ∧ writes w1 = [] ∧
    calls w1 = [] ++ [DeleteVpc (VStr "vpc-0a1")] ∧
    destroy busy_once_env false w1 = (Ok true, w2) ∧
    state w2 = MISSING ∧ resource_id w2 = VNone ∧
    calls w2 = [] ++ [DeleteVpc (VStr "vpc-0a1"); DeleteVpc (VStr "vpc-0a1")].
Proof.
  apply (destroy_refused_then_retried busy_once_env false (demo_world UP)
           (VStr "vpc-0a1") "DependencyViolation").
  - reflexivity.
  - reflexivity.
  - right. exists (VStr "eu-west-1"). split; reflexivity.
  - reflexivity.
  - discriminate.
  - reflexivity.
Defined.

Lemma destroy_leaves_stale_handle_witness :
  ∃ w',
    destroy quiet_env false (demo_world UP) = (Ok true, w') ∧
    vpc_id w' = VStr "vpc-0a1" ∧ is_Some (_client w') ∧
    vpc_id (reloaded w') = VNone ∧ state (reloaded w') = MISSING.
Proof.
  apply (destroy_leaves_stale_handle quiet_env false (demo_world UP)
           (VStr "vpc-0a1")).
  - reflexivity.
  - reflexivity.
  - right. exists (VStr "eu-west-1"). split; reflexivity.
  - left. reflexivity.
Defined.

(** ** What the handlers leave alone *)

#[local] Instance unaltered_preorder : PreOrder unaltered.
Proof.
  split.
  - by intros w.
  - intros w1 w2 w3 [? ?] [? ?]. unfold unaltered. split; congruence.
Qed.

#[local] Instance same_identity_preorder : PreOrder same_identity.
Proof.
  split.
  - by intros w.
  - intros w1 w2 w3 [? ?] [? ?]. unfold same_identity. split; congruence.
Qed.

Ltac unaltered_prim :=
  let w := fresh "w" in
  intros w; unfold unaltered, persisted; exec;
  repeat (case_match; exec_all; simplify_eq); done.

Section Unaltered.
Context (env : Env).

Lemma unaltered_get_state : frames unaltered get_state.
Proof. unaltered_prim. Qed.
Lemma unaltered_get_client : frames unaltered get_client.
Proof. unaltered_prim. Qed.
Lemma unaltered_get_vpc_id : frames unaltered get_vpc_id.
Proof. unaltered_prim. Qed.
Lemma unaltered_set_client c : frames unaltered (set_client c).
Proof. unaltered_prim. Qed.
Lemma unaltered_log msg : frames unaltered (log msg).
Proof. unaltered_prim. Qed.
Lemma unaltered_warn msg : frames unaltered (warn msg).
Proof. unaltered_prim. Qed.
Lemma unaltered_log_continue msg : frames unaltered (log_continue msg).
Proof. unaltered_prim. Qed.
Lemma unaltered_log_end msg : frames unaltered (log_end msg).
Proof. unaltered_prim. Qed.
Lemma unaltered_state_get k d : frames unaltered (state_get k d).
Proof. unaltered_prim. Qed.
Lemma unaltered_state_getitem k : frames unaltered (state_getitem k).
Proof. unaltered_prim. Qed.
Lemma unaltered_request {A} c (answer : nat → Resp A) :
  frames unaltered (request c answer).
Proof. unaltered_prim. Qed.
Lemma unaltered_client_attr : frames unaltered client_attr.
Proof. unaltered_prim. Qed.
Lemma unaltered_time_sleep secs : frames unaltered (time_sleep secs).
Proof. by intros w. Qed.
Lemma unaltered_connect : frames unaltered (connect env).
Proof. unfold connect. unaltered_prim. Qed.
End Unaltered.

#[local] Hint Resolve unaltered_get_state unaltered_get_client
  unaltered_get_vpc_id unaltered_set_client unaltered_log unaltered_warn
  unaltered_log_continue unaltered_log_end unaltered_state_get
  unaltered_state_getitem unaltered_request unaltered_client_attr
  unaltered_time_sleep unaltered_connect : frames.

Ltac unaltered_step :=
  first
    [ frames_step
    | lazymatch goal with
      | |- frames unaltered _ => solve [eauto with frames]
      end ].

Section HandlerFrames.
Context (env : Env).

Lemma unaltered_wait_for_ipv6_cidr_association fuel aid :
  frames unaltered (wait_for_ipv6_cidr_association env fuel aid).
Proof.
  unfold wait_for_ipv6_cidr_association, wait_for_ipv6_cidr_association_with,
    poll_ipv6_cidr_association.
  repeat unaltered_step.
Qed.

Lemma failure_atomic_after {A B} (m : M A) (k : A → M B) :
  frames unaltered m → (∀ a, failure_atomic (k a)) →
  failure_atomic (bind m k).
Proof.
  intros Hm Hk w. cbn [bind]. destruct (Hm w) as [Hp _].
  destruct (m w) as [[a|e|] w1]; cbn [fst snd] in *; [|by right..].
  destruct (Hk a w1) as [?|Hq]; [by left|right]. by rewrite Hq.
Qed.

Lemma failure_atomic_frames {A} (m : M A) :
  frames unaltered m → failure_atomic m.
Proof. intros Hm w. right. apply Hm. Qed.

Lemma unaltered_same_identity {A} (m : M A) :
  frames unaltered m → frames same_identity m.
Proof.
  intros Hm w. destruct (Hm w) as [Hp Hv]. split; [done|].
  unfold persisted in Hp. by injection Hp as _ _ ->.
Qed.

(** X16. The handlers other than the creation handler write at the very
    end: a run that does not complete, whatever the reason and whatever the
    endpoint has already been asked to change, leaves the persisted state
    exactly as it found it. *)
Theorem handlers_fail_without_writing fuel allow h :
  h ≠ handle_create →
  failure_atomic (handle (handlers env fuel h) allow).
Proof.
  intros Hh. destruct h; [done|..]; cbn [handle handlers].
  - unfold realize_dns_config.
    repeat (apply failure_atomic_after; [repeat unaltered_step|intros ?]).
    intros w. left. exec. by eexists.
  - unfold realize_classic_link_change.
    repeat (apply failure_atomic_after; [repeat unaltered_step|intros ?]).
    intros w. left. exec. by eexists.
  - unfold realize_associate_ipv6_cidr_block.
    apply failure_atomic_after; [repeat unaltered_step|intros ?].
    apply failure_atomic_after.
    { repeat unaltered_step. apply unaltered_wait_for_ipv6_cidr_association. }
    intros [aid|] w; left; exec; by eexists.
  - apply failure_atomic_frames. unfold realize_update_tag.
    repeat unaltered_step.
Qed.

(** X17. The handlers other than the creation handler never change the
    identity of the resource, whatever their outcome: neither the handle
    kept in memory nor the persisted vpcId. *)
Theorem handlers_keep_identity fuel allow h :
  h ≠ handle_create →
  frames same_identity (handle (handlers env fuel h) allow).
Proof.
  intros Hh. destruct h; [done|..]; cbn [handle handlers].
  - unfold realize_dns_config.
    repeat (apply frames_bind;
            [apply _|apply unaltered_same_identity; repeat unaltered_step
            |intros ?]).
    intros w. unfold same_identity. exec.
    split; [done|]. by rewrite !lookup_insert_ne.
  - unfold realize_classic_link_change.
    repeat (apply frames_bind;
            [apply _|apply unaltered_same_identity; repeat unaltered_step
            |intros ?]).
    intros w. unfold same_identity. exec.
    split; [done|]. by rewrite !lookup_insert_ne.
  - unfold realize_associate_ipv6_cidr_block.
    apply frames_bind;
      [apply _|apply unaltered_same_identity; repeat unaltered_step|intros ?].
    apply frames_bind; [apply _| |].
    { apply unaltered_same_identity. repeat unaltered_step.
      apply unaltered_wait_for_ipv6_cidr_association. }
    intros [aid|] w; unfold same_identity; exec;
      (split; [done|]); by rewrite !lookup_insert_ne.
  - apply unaltered_same_identity. unfold realize_update_tag.
    repeat unaltered_step.
Qed.

(** X18. The two attribute changes of the DNS handler are not undone:
    when the endpoint accepts the first and refuses the second, the
    handler raises that [ClientError] with both requests sent, addressed
    to the handle kept in memory, and with nothing written. *)
Theorem dns_config_half_applied allow w c code :
  _client w = Some c →
  modify_vpc_attribute (ec2 env) (length (calls w)) (vpc_id w)
    "EnableDnsSupport" (enableDnsSupport (get_defn env)) = RespOk tt →
  modify_vpc_attribute (ec2 env) (length (calls w) + 1) (vpc_id w)
    "EnableDnsHostnames" (enableDnsHostnames (get_defn env)) = RespErr code →
  ∃ w',
    realize_dns_config env allow w = (Raise (ClientError code), w') ∧
    persisted w' = persisted w ∧ writes w' = writes w ∧
    calls w' = calls w ++
      [ModifyVpcAttribute (vpc_id w) "EnableDnsSupport"
         (enableDnsSupport (get_defn env));
       ModifyVpcAttribute (vpc_id w) "EnableDnsHostnames"
         (enableDnsHostnames (get_defn env))].
Proof.
  intros Hc H1 H2. apply ends_outcome.
  unfold realize_dns_config. cbv zeta. ends_run.
  split_and!; try done. by rewrite <- app_assoc.
Qed.

(** X26. A ClassicLink disabling is recorded: when the definition says
    [False] and the recorded option is set, the handler sends the
    disabling to the handle kept in memory and records [False]; run again,
    it sends nothing. *)
Theorem classic_link_disabled_once allow w c old :
  _client w = Some c →
  enableClassicLink (get_defn env) = VBool false →
  _state w !! "enableClassicLink" = Some old → truthy old = true →
  (∀ t v, disable_vpc_classic_link (ec2 env) t v = RespOk tt) →
  ∃ w',
    (realize_classic_link_change env allow ;;;
     realize_classic_link_change env allow) w = (Ok tt, w') ∧
    _state w' !! "enableClassicLink" = Some (VBool false) ∧
    calls w' = calls w ++ [DisableVpcClassicLink (vpc_id w)].
Proof.
  intros Hc Hcfg Hold Htold Hdis. apply ends_outcome.
  apply ends_bind. unfold realize_classic_link_change. cbv zeta.
  ends_run. cbn [andb]. ends_run.
  unfold realize_classic_link_change. cbv zeta.
  ends_run. cbn [andb]. ends_run.
  by split_and!.
Qed.
End HandlerFrames.

Lemma handlers_fail_without_writing_witness :
  (∃ a, (handle (handlers hostnames_refused_env 1 handle_dns) true
           (demo_world UP)).1 = Ok a) ∨
  persisted (handle (handlers hostnames_refused_env 1 handle_dns) true
               (demo_world UP)).2
  = persisted (demo_world UP).
Proof.
  apply (handlers_fail_without_writing hostnames_refused_env 1 true handle_dns).
  discriminate.
Defined.

Lemma handlers_keep_identity_witness :
  same_identity (demo_world UP)
    (handle (handlers quiet_env 1 handle_associate_ipv6_cidr_block) true
       (demo_world UP)).2.
Proof.
  apply (handlers_keep_identity quiet_env 1 true
           handle_associate_ipv6_cidr_block).
  discriminate.
Defined.

Lemma dns_config_half_applied_witness :
  ∃ w',
    realize_dns_config hostnames_refused_env true (connected_world UP)
    = (Raise (ClientError "InvalidParameterValue"), w') ∧
    persisted w' = persisted (connected_world UP) ∧ writes w' = [] ∧
    calls w' = [] ++
      [ModifyVpcAttribute (VStr "vpc-0a1") "EnableDnsSupport" (VBool true);
       ModifyVpcAttribute (VStr "vpc-0a1") "EnableDnsHostnames" (VBool true)].
Proof.
  eapply (dns_config_half_applied hostnames_refused_env true
            (connected_world UP) _ "InvalidParameterValue").
  - reflexivity.
  - reflexivity.
  - reflexivity.
Defined.

Lemma classic_link_disabled_once_witness :
  ∃ w',
    (realize_classic_link_change quiet_env true ;;;
     realize_classic_link_change quiet_env true) (connected_world UP)
    = (Ok tt, w') ∧
    _state w' !! "enableClassicLink" = Some (VBool false) ∧
    calls w' = [] ++ [DisableVpcClassicLink (VStr "vpc-0a1")].
Proof.
  eapply (classic_link_disabled_once quiet_env true (connected_world UP) _
            (VBool true)).
  - reflexivity.
  - reflexivity.
  - reflexivity.
  - reflexivity.
  - intros t v. reflexivity.
Defined.

(** ** The IPv6 association *)

Ltac poll_cases :=
  exec;
  repeat (match goal with
          | |- context [match _client ?w with _ => _ end] =>
              destruct (_client w) eqn:?
          | |- context [match _state ?w !! ?k with _ => _ end] =>
              destruct (_state w !! k) eqn:?
          | |- context [match describe_vpcs ?e ?t ?v with _ => _ end] =>
              destruct (describe_vpcs e t v) as [[|? [|? ?]]|] eqn:?
          | |- context [match lookup_association ?a ?s with _ => _ end] =>
              destruct (lookup_association a s) eqn:?
          | |- context [String.eqb ?a ?b] =>
              destruct (String.eqb a b) eqn:?
          end;
          exec; rewrite ?time_sleep_raises; exec).

Section Association.
Context (env : Env).

(** X19. The nested [lookup_association] answers the first association
    of the set that carries the identifier, and [None] exactly when no
    association carries it. *)
Theorem lookup_association_first aid set :
  match lookup_association aid set with
  | Some a =>
      ∃ before after,
        set = before ++ a :: after ∧ aid = VStr (AssociationId a) ∧
        ∀ b, b ∈ before → aid ≠ VStr (AssociationId b)
  | None => ∀ b, b ∈ set → aid ≠ VStr (AssociationId b)
  end.
Proof.
  induction set as [|x set IH]; cbn [lookup_association].
  - by intros b ?%elem_of_nil.
  - case_bool_decide as Hx.
    + exists [], set. split_and!; [done|done|]. by intros b ?%elem_of_nil.
    + destruct (lookup_association aid set) as [a|].
      * destruct IH as (before & after & -> & Ha & Hb).
        exists (x :: before), after. split_and!; [done|done|].
        intros b [->|Hin]%elem_of_cons; auto.
      * intros b [->|Hin]%elem_of_cons; auto.
Qed.

(** X20. The outcomes of the IPv6 waiter when the endpoint describes
    exactly one VPC, each after a single poll and with nothing persisted:
    [TypeError] when the association is not listed; the CIDR block when it
    is associated; [NameError] from the pause when it is still
    associating; the error naming the association and its state
    otherwise. *)
Theorem wait_for_ipv6_cidr_association_outcomes fuel aid w c vid vpc :
  _client w = Some c → _state w !! "vpcId" = Some vid →
  describe_now env w vid = RespOk [vpc] →
  wait_for_ipv6_cidr_association env (S fuel) aid w
  = match lookup_association aid (Ipv6CidrBlockAssociationSet vpc) with
    | None =>
        (Raise (TypeError "'NoneType' object is not subscriptable"),
         asked w (DescribeVpcs vid))
    | Some a =>
        if String.eqb (Ipv6CidrBlockState a) "associated" then
          (Ok (Ipv6CidrBlock a), warned (asked w (DescribeVpcs vid)) " done")
        else if String.eqb (Ipv6CidrBlockState a) "associating" then
          (Raise (NameError "time"), warned (asked w (DescribeVpcs vid)) ".")
        else
          (Raise (Exception ("ipv6 cidr block association " +:+ py_str aid
                             +:+ " is in an unexpected state "
                             +:+ Ipv6CidrBlockState a)),
           asked w (DescribeVpcs vid))
    end.
Proof.
  unfold describe_now. intros Hc Hv Hd.
  unfold wait_for_ipv6_cidr_association, wait_for_ipv6_cidr_association_with,
    poll_ipv6_cidr_association, warned, asked.
  run.
  destruct (lookup_association aid (Ipv6CidrBlockAssociationSet vpc)) as [a|];
    [|done].
  destruct (String.eqb (Ipv6CidrBlockState a) "associated"); exec; [done|].
  destruct (String.eqb (Ipv6CidrBlockState a) "associating"); exec; [|done].
  rewrite time_sleep_raises. by exec.
Qed.

(** X21. Neither waiter of the module ever goes round its loop: whatever
    the object and the endpoint, each sends at most one poll, ends without
    exhausting its fuel, and behaves the same for every positive amount of
    fuel. *)
Theorem waiters_poll_at_most_once fuel target aid w :
  let r := wait_for_vpc_available env (S fuel) target w in
  let r6 := wait_for_ipv6_cidr_association env (S fuel) aid w in
  r = wait_for_vpc_available env 1 target w ∧ r.1 ≠ OutOfFuel ∧
  polls (calls r.2) ≤ polls (calls w) + 1 ∧
  r6 = wait_for_ipv6_cidr_association env 1 aid w ∧ r6.1 ≠ OutOfFuel ∧
  polls (calls r6.2) ≤ polls (calls w) + 1.
Proof.
  assert (∀ l v, polls (l ++ [DescribeVpcs v]) = polls l + 1) as Hp.
  { intros l v. unfold polls. by rewrite List.filter_app, length_app. }
  cbv zeta.
  unfold wait_for_vpc_available, wait_for_vpc_available_with,
    wait_for_ipv6_cidr_association, wait_for_ipv6_cidr_association_with,
    poll_vpc_available, poll_ipv6_cidr_association.
  split_and!; poll_cases; rewrite ?Hp; first [done|lia].
Qed.

(** X22. When the endpoint associates a block and reports the
    association associated at the first poll, the IPv6 handler returns,
    having sent the association request and one poll; it records the
    option and the identifier of the association and logs the generated
    block. *)
Theorem ipv6_association_recorded fuel allow w c vid aid vpc a :
  _client w = Some c →
  truthy (amazonProvidedIpv6CidrBlock (get_defn env)) = true →
  _state w !! "vpcId" = Some vid →
  associate_vpc_cidr_block (ec2 env) (length (calls w))
    (amazonProvidedIpv6CidrBlock (get_defn env)) vid = RespOk aid →
  describe_vpcs (ec2 env) (length (calls w) + 1) vid = RespOk [vpc] →
  lookup_association (VStr aid) (Ipv6CidrBlockAssociationSet vpc) = Some a →
  Ipv6CidrBlockState a = "associated" →
  ∃ w',
    realize_associate_ipv6_cidr_block env (S fuel) allow w = (Ok tt, w') ∧
    state w' = state w ∧
    _state w'
    = <["associationId" := VStr aid]>
        (<["amazonProvidedIpv6CidrBlock" :=
             amazonProvidedIpv6CidrBlock (get_defn env)]> (_state w)) ∧
    calls w' = calls w ++
      [AssociateVpcCidrBlock (amazonProvidedIpv6CidrBlock (get_defn env)) vid;
       DescribeVpcs vid] ∧
    last (logs w') = Some ("generated Ipv6 cidr block: " +:+ Ipv6CidrBlock a).
Proof.
  intros Hc Hassign Hv Hassoc Hd Hl Has. apply ends_outcome.
  unfold realize_associate_ipv6_cidr_block. cbv zeta. ends_run.
  unfold_waiters. ends_run.
  split_and!; try done.
  - by rewrite <- app_assoc.
  - by rewrite last_snoc.
Qed.

(** X23. An association that is still in progress is lost: the endpoint
    has associated a block, the first poll reports it associating, the
    pause raises [NameError], and the handler ends without having recorded
    the identifier of the association or anything else. *)
Theorem association_in_progress_is_lost fuel allow w c vid aid vpc a :
  _client w = Some c →
  truthy (amazonProvidedIpv6CidrBlock (get_defn env)) = true →
  _state w !! "vpcId" = Some vid →
  associate_vpc_cidr_block (ec2 env) (length (calls w))
    (amazonProvidedIpv6CidrBlock (get_defn env)) vid = RespOk aid →
  describe_vpcs (ec2 env) (length (calls w) + 1) vid = RespOk [vpc] →
  lookup_association (VStr aid) (Ipv6CidrBlockAssociationSet vpc) = Some a →
  Ipv6CidrBlockState a = "associating" →
  ∃ w',
    realize_associate_ipv6_cidr_block env (S fuel) allow w
    = (Raise (NameError "time"), w') ∧
    persisted w' = persisted w ∧ writes w' = writes w ∧
    calls w' = calls w ++
      [AssociateVpcCidrBlock (amazonProvidedIpv6CidrBlock (get_defn env)) vid;
       DescribeVpcs vid].
Proof.
  intros Hc Hassign Hv Hassoc Hd Hl Has. apply ends_outcome.
  unfold realize_associate_ipv6_cidr_block. cbv zeta. ends_run.
  unfold_waiters. ends_run.
  split_and!; try done. by rewrite <- app_assoc.
Qed.

(** X24. A disassociation is not recorded: when the definition asks for
    no block and an association is recorded, the IPv6 handler sends the
    disassociation and stores the option, and the recorded identifier
    stays; run again, the handler sends the same disassociation again. *)
Theorem disassociation_is_not_recorded fuel allow w c vid old :
  _client w = Some c →
  truthy (amazonProvidedIpv6CidrBlock (get_defn env)) = false →
  _state w !! "vpcId" = Some vid →
  _state w !! "associationId" = Some old → truthy old = true →
  (∀ t a, disassociate_vpc_cidr_block (ec2 env) t a = RespOk tt) →
  ∃ w',
    (realize_associate_ipv6_cidr_block env fuel allow ;;;
     realize_associate_ipv6_cidr_block env fuel allow) w = (Ok tt, w') ∧
    _state w' !! "associationId" = Some old ∧
    _state w' !! "amazonProvidedIpv6CidrBlock"
    = Some (amazonProvidedIpv6CidrBlock (get_defn env)) ∧
    calls w' = calls w ++ [DisassociateVpcCidrBlock old;
                           DisassociateVpcCidrBlock old].
Proof.
  intros Hc Hassign Hv Hold Htold Hdis. apply ends_outcome.
  apply ends_bind. unfold realize_associate_ipv6_cidr_block. cbv zeta.
  ends_run.
  unfold realize_associate_ipv6_cidr_block. cbv zeta.
  ends_run.
  split_and!; try done. by rewrite <- app_assoc.
Qed.
End Association.

Lemma wait_for_ipv6_cidr_association_outcomes_witness :
  wait_for_ipv6_cidr_association quiet_env 1 (VStr "vpc-cidr-assoc-7")
    (connected_world UP)
  = (Ok "2600:1f16::/56",
     warned (asked (connected_world UP) (DescribeVpcs (VStr "vpc-0a1")))
       " done").
Proof.
  eapply (wait_for_ipv6_cidr_association_outcomes quiet_env 0
            (VStr "vpc-cidr-assoc-7") (connected_world UP) _ (VStr "vpc-0a1")
            (described (VStr "vpc-0a1") "available" "associated")).
  - reflexivity.
  - reflexivity.
  - reflexivity.
Defined.

Lemma ipv6_association_recorded_witness :
  ∃ w',
    realize_associate_ipv6_cidr_block quiet_env 1 true (connected_world UP)
    = (Ok tt, w') ∧
    state w' = UP ∧
    _state w'
    = <["associationId" := VStr "vpc-cidr-assoc-7"]>
        (<["amazonProvidedIpv6CidrBlock" := VBool true]>
           (_state (connected_world UP))) ∧
    calls w' = [] ++
      [AssociateVpcCidrBlock (VBool true) (VStr "vpc-0a1");
       DescribeVpcs (VStr "vpc-0a1")] ∧
    last (logs w') = Some "generated Ipv6 cidr block: 2600:1f16::/56".
Proof.
  eapply (ipv6_association_recorded quiet_env 0 true (connected_world UP) _
            (VStr "vpc-0a1") "vpc-cidr-assoc-7"
            (described (VStr "vpc-0a1") "available" "associated")
            {| AssociationId := "vpc-cidr-assoc-7";
               Ipv6CidrBlock := "2600:1f16::/56";
               Ipv6CidrBlockState := "associated" |}).
  - reflexivity.
  - reflexivity.
  - reflexivity.
  - reflexivity.
  - reflexivity.
  - reflexivity.
  - reflexivity.
Defined.

Lemma association_in_progress_is_lost_witness :
  ∃ w',
    realize_associate_ipv6_cidr_block associating_env 1 true
      (connected_world UP)
    = (Raise (NameError "time"), w') ∧
    persisted w' = persisted (connected_world UP) ∧ writes w' = [] ∧
    calls w' = [] ++
      [AssociateVpcCidrBlock (VBool true) (VStr "vpc-0a1");
       DescribeVpcs (VStr "vpc-0a1")].
Proof.
  eapply (association_in_progress_is_lost associating_env 0 true
            (connected_world UP) _ (VStr "vpc-0a1") "vpc-cidr-assoc-7"
            (described (VStr "vpc-0a1") "available" "associating")
            {| AssociationId := "vpc-cidr-assoc-7";
               Ipv6CidrBlock := "2600:1f16::/56";
               Ipv6CidrBlockState := "associating" |}).
  - reflexivity.
  - reflexivity.
  - reflexivity.
  - reflexivity.
  - reflexivity.
  - reflexivity.
  - reflexivity.
Defined.

Lemma disassociation_is_not_recorded_witness :
  ∃ w',
    (realize_associate_ipv6_cidr_block no_ipv6_env 1 true ;;;
     realize_associate_ipv6_cidr_block no_ipv6_env 1 true) (connected_world UP)
    = (Ok tt, w') ∧
    _state w' !! "associationId" = Some (VStr "vpc-cidr-assoc-3") ∧
    _state w' !! "amazonProvidedIpv6CidrBlock" = Some (VBool false) ∧
    calls w' = [] ++ [DisassociateVpcCidrBlock (VStr "vpc-cidr-assoc-3");
                      DisassociateVpcCidrBlock (VStr "vpc-cidr-assoc-3")].
Proof.
  eapply (disassociation_is_not_recorded no_ipv6_env 1 true
            (connected_world UP) _ (VStr "vpc-0a1")
            (VStr "vpc-cidr-assoc-3")).
  - reflexivity.
  - reflexivity.
  - reflexivity.
  - reflexivity.
  - reflexivity.
  - intros t a. reflexivity.
Defined.

(** ** Tags *)

Lemma dict_get_set k k' v d :
  dict_get k (dict_set k' v d)
  = if String.eqb k k' then Some v else dict_get k d.
Proof.
  induction d as [|[k1 v1] d IH]; cbn [dict_set dict_get].
  - done.
  - destruct (String.eqb k' k1) eqn:H1; cbn [dict_get].
    + apply String.eqb_eq in H1 as ->.
      by destruct (String.eqb k k1).
    + rewrite IH. destruct (String.eqb k k1) eqn:H2; [|done].
      apply String.eqb_eq in H2 as ->.
      rewrite String.eqb_sym in H1. by rewrite H1.
Qed.

Lemma dict_get_update k d other :
  dict_get k (dict_update d other)
  = match dict_get k (rev other) with
    | Some v => Some v
    | None => dict_get k d
    end.
Proof.
  unfold dict_update. revert d.
  induction other as [|[k1 v1] other IH] using rev_ind; intros d.
  - done.
  - rewrite fold_left_app, rev_app_distr.
    cbn [fold_left rev app dict_get fst snd].
    rewrite dict_get_set. destruct (String.eqb k k1); [done|]. apply IH.
Qed.

(** X25. The tag handler sends one tagging request, addressed to the
    handle kept in memory, and persists nothing, whatever the endpoint
    answers.  In the tags it sends, a key of the common tags carries the
    value of the common tags (the last one given), and any other key
    carries the value the definition gives it. *)
Theorem update_tag_merges_common_tags env allow w c :
  _client w = Some c →
  ∃ sent,
    calls (realize_update_tag env allow w).2
    = calls w ++ [CreateTags (vpc_id w) sent] ∧
    persisted (realize_update_tag env allow w).2 = persisted w ∧
    ∀ k, dict_get k sent
         = match dict_get k (rev (get_common_tags env)) with
           | Some v => Some v
           | None => dict_get k (tags (get_defn env))
           end.
Proof.
  intros Hc. eexists. split_and!.
  - unfold realize_update_tag, connect. run.
    by destruct (create_tags _ _ _ _).
  - unfold realize_update_tag, connect. run.
    by destruct (create_tags _ _ _ _).
  - intros k. apply dict_get_update.
Qed.

Lemma update_tag_merges_common_tags_witness :
  ∃ sent,
    calls (realize_update_tag quiet_env true (connected_world UP)).2
    = [] ++ [CreateTags (VStr "vpc-0a1") sent] ∧
    persisted (realize_update_tag quiet_env true (connected_world UP)).2
    = persisted (connected_world UP) ∧
    ∀ k, dict_get k sent
         = match dict_get k (rev [("CharonNetworkUUID", "6f1c")]) with
           | Some v => Some v
           | None => dict_get k [("env", "demo")]
           end.
Proof.
  eapply (update_tag_merges_common_tags quiet_env true (connected_world UP)).
  reflexivity.
Defined.
